(** * Quantum ESPRESSO (CMake) easyblock: option resolution, test-suite
      evaluation and sanity-check artifact derivation.

    Shallow embedding of [easybuild/easyblocks/q/quantumespressocmake.py]
    (class [EB_QuantumESPRESSOcmake]).  Python [str] values are Rocq
    strings whose characters are the code points below 256; integers are
    unbounded ([Z], [N]); the mutable attributes of [self] that the
    methods update are threaded through a state-and-exception monad in
    which a raised [EasyBuildError] keeps the mutations done so far. *)

From Stdlib Require Import String Ascii List ZArith NArith QArith Lia Bool Permutation.
From Stdlib Require Import DecimalString.
From stdpp Require Import base gmap strings.
Import ListNotations.
Close Scope Q_scope.
Local Open Scope string_scope.
Local Open Scope list_scope.

(** ** Versions *)

(** Modelled from the spec: the framework's version-comparison primitive
    [LooseVersion] (module [easybuild.tools], outside this repository).
    The spec fixes segment-wise numeric ordering, never lexical string
    ordering; a version is the list of its numeric segments ("7.3.1" is
    [[7;3;1]]) and the order is the lexicographic one on segments, a
    proper prefix being smaller. *)
Definition LooseVersion := list N.

Fixpoint version_compare (a b : LooseVersion) : comparison :=
  match a, b with
  | [], [] => Eq
  | [], _ :: _ => Lt
  | _ :: _, [] => Gt
  | x :: a', y :: b' =>
      match N.compare x y with
      | Eq => version_compare a' b'
      | c => c
      end
  end.

Definition version_lt (a b : LooseVersion) : bool :=
  match version_compare a b with Lt => true | _ => false end.
Definition version_gt (a b : LooseVersion) : bool :=
  match version_compare a b with Gt => true | _ => false end.
Definition version_eq (a b : LooseVersion) : bool :=
  match version_compare a b with Eq => true | _ => false end.

(** ** Read-only inputs of the easyblock *)

(** The custom easyconfig parameters of [extra_options], with the
    framework parameters the methods read ([build_shared_libs],
    [buildopts], [parallel]). *)
Record EasyConfig := {
  with_cuda : bool;
  with_scalapack : bool;
  with_fox : bool;
  with_gipaw : bool;
  with_d3q : bool;
  with_qmcpack : bool;
  test_suite_nprocs : Z;
  test_suite_allow_failures : list string;
  test_suite_threshold : Q;
  test_suite_max_failed : Z;
  build_shared_libs : bool;
  buildopts : string;
  parallel : Z
}.

(** Compiler families of [easybuild.tools.toolchain]; only [INTELCOMP]
    is named by the easyblock. *)
Inductive CompFamily := GCC | INTELCOMP | OtherComp (name : string).

#[global] Instance CompFamily_eq_dec : EqDecision CompFamily.
Proof. solve_decision. Defined.

Record Toolchain := {
  usempi : bool;
  openmp : bool;
  comp_family : CompFamily
}.

(** [loaded] is the set of dependency names for which
    [get_software_root] returns a root. *)
Record EasyBlock := {
  cfg : EasyConfig;
  toolchain : Toolchain;
  version : LooseVersion;
  loaded : gset string
}.

Definition get_software_root (self : EasyBlock) (name : string) : bool :=
  bool_decide (name ∈ loaded self).

(** The defaults of [extra_options]. *)
Definition default_allow_failures : list string :=
  ["test_qe_xclib_"; "--hp_"; "--ph_"; "--epw_"; "--tddfpt_"].

Definition default_cfg : EasyConfig := {|
  with_cuda := false;
  with_scalapack := true;
  with_fox := false;
  with_gipaw := true;
  with_d3q := false;
  with_qmcpack := false;
  test_suite_nprocs := 1;
  test_suite_allow_failures := default_allow_failures;
  test_suite_threshold := (97 # 100)%Q;
  test_suite_max_failed := 0;
  build_shared_libs := false;
  buildopts := EmptyString;
  parallel := 1
|}.

(** ** Mutable state and exceptions *)

(** What the methods mutate: the [configopts] argument list of the
    easyconfig, the [check_bins] attribute, and [os.environ]. *)
Record State := {
  configopts : list string;
  check_bins : list string;
  environ : gmap string string
}.

(** [__init__]: [self.check_bins = []]. *)
Definition init_state (opts : list string) (env : gmap string string) : State :=
  {| configopts := opts; check_bins := []; environ := env |}.

(** The exceptions the methods raise.  [EasyBuildError] carries its
    message; the one message that formats floats,
    ["Test suite failed with less than %.2f %% (%.2f) success rate" %
    (thr * 100, perc * 100)], keeps [thr] and [perc] as numbers in
    [EasyBuildError_rate]. *)
Inductive Exception :=
  | EasyBuildError (msg : string)
  | EasyBuildError_rate (thr perc : Q)
  | ZeroDivisionError.

(** A call either returns or raises. *)
Inductive outcome (A : Type) :=
  | Returned (a : A)
  | Raised (e : Exception).
Arguments Returned {A} a.
Arguments Raised {A} e.

(** A method: the state it leaves is there whether it returned or raised. *)
Definition M (A : Type) : Type := State -> outcome A * State.

#[global] Instance M_ret : MRet M := fun A a st => (Returned a, st).
#[global] Instance M_bind : MBind M := fun A B f m st =>
  match m st with
  | (Returned a, st') => f a st'
  | (Raised e, st') => (Raised e, st')
  end.

Definition raise {A} (e : Exception) : M A := fun st => (Raised e, st).

(** [self.cfg.update('configopts', arg)]. *)
Definition cfg_update_configopts (arg : string) : M unit := fun st =>
  (Returned tt,
   {| configopts := configopts st ++ [arg];
      check_bins := check_bins st;
      environ := environ st |}).

(** [self.check_bins += bins]. *)
Definition check_bins_extend (bins : list string) : M unit := fun st =>
  (Returned tt,
   {| configopts := configopts st;
      check_bins := check_bins st ++ bins;
      environ := environ st |}).

(** [self.check_bins]. *)
Definition get_check_bins : M (list string) := fun st =>
  (Returned (check_bins st), st).

(** [os.environ.get(name, default)]. *)
Definition environ_get (name default : string) : M string := fun st =>
  (Returned (match environ st !! name with Some v => v | None => default end), st).

(** [os.environ[name] = value]. *)
Definition environ_set (name value : string) : M unit := fun st =>
  (Returned tt,
   {| configopts := configopts st;
      check_bins := check_bins st;
      environ := <[name := value]> (environ st) |}).

(** ** Option resolver *)

Definition _add_mpi (self : EasyBlock) : M unit :=
  if usempi (toolchain self) then cfg_update_configopts "-DENABLE_MPI=ON"
  else mret tt.

Definition _add_openmp (self : EasyBlock) : M unit :=
  if openmp (toolchain self) then cfg_update_configopts "-DENABLE_OPENMP=ON"
  else mret tt.

Definition _add_cuda (self : EasyBlock) : M unit :=
  if with_cuda (cfg self) then
    cfg_update_configopts "-DQE_ENABLE_CUDA=ON" ;;
    cfg_update_configopts "-DQE_ENABLE_OPENACC=ON"
  else mret tt.

Definition _add_scalapack (self : EasyBlock) : M unit :=
  if with_scalapack (cfg self) then
    if negb (usempi (toolchain self)) then
      raise (EasyBuildError "ScaLAPACK support requires MPI")
    else cfg_update_configopts "-DQE_ENABLE_SCALAPACK=ON"
  else mret tt.

Definition _add_fox (self : EasyBlock) : M unit :=
  if with_fox (cfg self) then cfg_update_configopts "-DQE_ENABLE_FOX=ON"
  else mret tt.

Definition _add_hdf5 (self : EasyBlock) : M unit :=
  if get_software_root self "HDF5" then cfg_update_configopts "-DQE_ENABLE_HDF5=ON"
  else mret tt.

Definition _add_libxc (self : EasyBlock) : M unit :=
  if get_software_root self "libxc" then cfg_update_configopts "-DQE_ENABLE_LIBXC=ON"
  else mret tt.

Definition _add_elpa (self : EasyBlock) : M unit :=
  if get_software_root self "ELPA" then
    if negb (with_scalapack (cfg self)) then
      raise (EasyBuildError "ELPA support requires ScaLAPACK")
    else if version_eq (version self) [7; 3]%N && openmp (toolchain self) then
      raise (EasyBuildError "QE 7.3 with cmake does not support ELPA with OpenMP")
    else cfg_update_configopts "-DQE_ENABLE_ELPA=ON"
  else mret tt.

Definition d3q_bins : list string :=
  ["d3_asr3.x"; "d3_lw.x"; "d3_q2r.x"; "d3_qq2rr.x"; "d3q.x"; "d3_r2q.x"; "d3_recenter.x";
   "d3_sparse.x"; "d3_sqom.x"; "d3_tk.x"].

Definition _add_gipaw (self : EasyBlock) : M (list string) :=
  if with_gipaw (cfg self) then
    if version_eq (version self) [7; 3; 1]%N then
      raise (EasyBuildError "GIPAW will fail to compile in QE 7.3.1")
    else
      check_bins_extend ["gipaw.x"] ;;
      mret ["gipaw"]
  else mret [].

Definition _add_d3q (self : EasyBlock) : M (list string) :=
  if with_d3q (cfg self) then
    if version_gt (version self) [7; 0]%N then
      raise (EasyBuildError "D3Q is not supported in QE 7.0+")
    else
      check_bins_extend d3q_bins ;;
      mret ["d3q"]
  else mret [].

Definition _add_qmcpack (self : EasyBlock) : M (list string) :=
  if with_qmcpack (cfg self) then
    check_bins_extend ["pw2qmcpack.x"] ;;
    mret ["pw2qmcpack"]
  else mret [].

Definition _add_toolchains_opts (self : EasyBlock) : M unit :=
  _add_mpi self ;;
  _add_openmp self ;;
  _add_cuda self.

Definition _add_libraries (self : EasyBlock) : M unit :=
  _add_scalapack self ;;
  _add_fox self ;;
  _add_libxc self ;;
  _add_elpa self ;;
  _add_hdf5 self.

(** The one-character string holding a double quote. *)
Definition dquote : string := String (ascii_of_nat 34) EmptyString.

(** ['-DQE_ENABLE_PLUGINS="%s"' % ';'.join(plugins)]. *)
Definition plugins_opt (plugins : list string) : string :=
  "-DQE_ENABLE_PLUGINS=" +:+ dquote +:+ String.concat ";" plugins +:+ dquote.

Definition _add_plugins (self : EasyBlock) : M unit :=
  let plugins := [] in
  res ← _add_gipaw self;
  let plugins := plugins ++ res in
  res ← _add_d3q self;
  let plugins := plugins ++ res in
  res ← _add_qmcpack self;
  let plugins := plugins ++ res in
  match plugins with
  | [] => mret tt
  | _ :: _ => cfg_update_configopts (plugins_opt plugins)
  end.

(** ['%d' % n]. *)
Definition fmt_d (n : Z) : string := NilZero.string_of_int (Z.to_int n).

Definition ldflags_workaround : string := " -Wl,--copy-dt-needed-entries ".

(** [configure_step], up to the call of the superclass's [configure_step]
    (the CMake run of the framework, which consumes [configopts]). *)
Definition configure_step (self : EasyBlock) : M unit :=
  if version_lt (version self) [7; 3]%N then
    raise (EasyBuildError "EB QuantumEspresso cmake is implemented for versions >= 7.3")
  else
    let comp_fam := comp_family (toolchain self) in
    _add_toolchains_opts self ;;
    _add_libraries self ;;
    _add_plugins self ;;
    let nprocs := test_suite_nprocs (cfg self) in
    cfg_update_configopts "-DQE_ENABLE_TEST=ON" ;;
    cfg_update_configopts ("-DTESTCODE_NPROCS=" +:+ fmt_d nprocs) ;;
    cfg_update_configopts "-DQE_CLOCK_SECONDS=ON" ;;
    if build_shared_libs (cfg self) && bool_decide (comp_fam = INTELCOMP) then
      ldflags ← environ_get "LDFLAGS" EmptyString;
      environ_set "LDFLAGS" (ldflags +:+ ldflags_workaround)
    else mret tt.

(** ** Test outcome evaluator *)

Definition is_space (c : ascii) : bool := (N_of_ascii c =? 32)%N.

Definition is_digit (c : ascii) : bool :=
  let n := N_of_ascii c in (48 <=? n)%N && (n <=? 57)%N.

(** The longest run of characters satisfying [p] at the head of [s],
    and what follows it (a greedy [p*]). *)
Fixpoint span (p : ascii -> bool) (s : string) : string * string :=
  match s with
  | EmptyString => (EmptyString, EmptyString)
  | String c rest =>
      if p c then let '(run, tl) := span p rest in (String c run, tl)
      else (EmptyString, s)
  end.

(** A greedy [p+]: at least one character. *)
Definition span1 (p : ascii -> bool) (s : string) : option (string * string) :=
  match span p s with
  | (EmptyString, _) => None
  | (run, tl) => Some (run, tl)
  end.

(** The literal [lit] at the head of [s]: what follows it. *)
Fixpoint strip_prefix (lit s : string) : option string :=
  match lit with
  | EmptyString => Some s
  | String a lit' =>
      match s with
      | EmptyString => None
      | String b s' => if Ascii.eqb a b then strip_prefix lit' s' else None
      end
  end.

(** [int(digits)] for a run of decimal digits. *)
Definition int_of_digits (digits : string) : N :=
  fold_left (fun acc c => (10 * acc + (N_of_ascii c - 48))%N)
            (list_ascii_of_string digits) 0%N.

(** The groups [perc], [failed] and [total] of a match. *)
Record Match := { perc_group : N; failed_group : N; total_group : N }.

(** The pattern after its anchor,
    [ *(\d+)% tests passed, +(\d+) +tests failed out of +(\d+)],
    matched at the head of [s].  Each repetition is followed in the
    pattern by a character outside its class, so the greedy run is the
    only one that can succeed. *)
Definition match_rgx (s : string) : option Match :=
  let '(_, s) := span is_space s in
  '(perc, s) ← span1 is_digit s;
  s ← strip_prefix "% tests passed," s;
  '(_, s) ← span1 is_space s;
  '(failed, s) ← span1 is_digit s;
  '(_, s) ← span1 is_space s;
  s ← strip_prefix "tests failed out of" s;
  '(_, s) ← span1 is_space s;
  '(total, _) ← span1 is_digit s;
  Some {| perc_group := int_of_digits perc;
          failed_group := int_of_digits failed;
          total_group := int_of_digits total |}.

Definition is_newline (c : ascii) : bool := (N_of_ascii c =? 10)%N.

(** [re.search(rgx, out, re.MULTILINE)]: the leftmost position at which
    the pattern matches; its anchor [^] holds at the start of the text
    and after every newline, which [at_bol] records. *)
Fixpoint re_search (at_bol : bool) (out : string) : option Match :=
  match (if at_bol then match_rgx out else None) with
  | Some m => Some m
  | None =>
      match out with
      | EmptyString => None
      | String c rest => re_search (is_newline c) rest
      end
  end.

(** [needle in hay]. *)
Fixpoint contains (needle hay : string) : bool :=
  String.prefix needle hay ||
  match hay with
  | EmptyString => false
  | String _ hay' => contains needle hay'
  end.

(** The line boundaries of [str.splitlines] below code point 256, the
    pair CR LF apart: LF, VT, FF, CR, FS, GS, RS and NEL. *)
Definition is_linebreak (c : ascii) : bool :=
  let n := N_of_ascii c in
  ((10 <=? n) && (n <=? 13) || (28 <=? n) && (n <=? 30) || (n =? 133))%N.

(** [out.splitlines()]: [cur] is the line being read. *)
Fixpoint splitlines_go (cur : string) (s : string) : list string :=
  match s with
  | EmptyString => match cur with EmptyString => [] | _ => [cur] end
  | String c rest =>
      if is_linebreak c then
        match rest with
        | String c' rest' =>
            if (N_of_ascii c =? 13)%N && (N_of_ascii c' =? 10)%N
            then cur :: splitlines_go EmptyString rest'
            else cur :: splitlines_go EmptyString rest
        | EmptyString => cur :: splitlines_go EmptyString rest
        end
      else splitlines_go (cur +:+ String c EmptyString) rest
  end.

Definition splitlines (s : string) : list string := splitlines_go EmptyString s.

(** The inner [for allowed in allow_fail] loop: [true] when it leaves by
    [break], [false] when it runs to its [else] clause. *)
Fixpoint allowed_loop (allow_fail : list string) (line : string) : bool :=
  match allow_fail with
  | [] => false
  | allowed :: allow_fail' =>
      if contains allowed line then true else allowed_loop allow_fail' line
  end.

(** One iteration of [for line in out.splitlines()] on the list
    [failures]. *)
Definition scan_line (allow_fail : list string) (failures : list string)
    (line : string) : list string :=
  if contains "***Failed" line then
    if allowed_loop allow_fail line then failures
    else failures ++ [line]
  else failures.

Definition scan_failures (allow_fail : list string) (lines : list string) : list string :=
  fold_left (scan_line allow_fail) lines [].

(** [x < y] on rationals. *)
Definition Qltb (x y : Q) : bool := negb (Qle_bool y x).

(** The part of [test_step] that follows the run of the harness: the
    decision on its output [out] for the allow-list [allow_fail], the
    rate threshold [thr] and the failure limit [num_fail_thr].  The
    Python floats [perc] and [thr] are the rationals they stand for,
    [perc_group / 100] and the decimal written in the easyconfig, and
    [int] and the division are exact.  This is what the code computes
    where [int] and the floats do not interfere: on a summary line of at
    most 300 characters ([int] refuses a run of more than 4300 digits,
    and [int(...) / 100] raises [OverflowError] beyond the largest float)
    and, where the rate is below the threshold, for a threshold between
    0 and 1 written with at most fifteen decimals (below it stays below
    after rounding to doubles; a rate that is not below the threshold is
    not below it after rounding, whatever the threshold).  The statements
    that depend on the numbers carry these conditions, [short_line] and
    [short_decimal].  The calls of [self.log] leave no trace in the
    result. *)
Definition evaluate (out : string) (allow_fail : list string) (thr : Q)
    (num_fail_thr : Z) : outcome string :=
  match re_search true out with
  | None => Raised (EasyBuildError "Failed to parse test suite output")
  | Some mch =>
      let perc := (Z.of_N (perc_group mch) # 100)%Q in
      let num_fail := Z.of_N (failed_group mch) in
      let total := Z.of_N (total_group mch) in
      let passed := (total - num_fail)%Z in
      let failures := scan_failures allow_fail (splitlines out) in
      let num_fail := Z.of_nat (length failures) in
      if Qltb perc thr then
        Raised (EasyBuildError_rate thr perc)
      else if (num_fail >? num_fail_thr)%Z then
        Raised (EasyBuildError
                  ("Test suite failed with more than " +:+ fmt_d num_fail_thr
                   +:+ " failures " +:+ fmt_d num_fail))
      else Returned out
  end.

(** [test_step]: [run_cmd] is the framework's process runner, giving the
    output and the exit status of a command line. *)
Definition test_step (self : EasyBlock) (run_cmd : string -> string * Z) : outcome string :=
  let thr := test_suite_threshold (cfg self) in
  let nprocs := test_suite_nprocs (cfg self) in
  if (nprocs =? 0)%Z then Raised ZeroDivisionError
  else
    let concurrent := Z.max 1 (parallel (cfg self) / nprocs) in
    let allow_fail := test_suite_allow_failures (cfg self) in
    let cmd := String.concat " " ["ctest"; "-j" +:+ fmt_d concurrent; "--output-on-failure"] in
    let '(out, _) := run_cmd cmd in
    evaluate out allow_fail thr (test_suite_max_failed (cfg self)).

(** ** Artifact set deriver *)

(** The whitespace of [str.split] below code point 256. *)
Definition is_whitespace (c : ascii) : bool :=
  let n := N_of_ascii c in
  ((9 <=? n) && (n <=? 13) || (28 <=? n) && (n <=? 32) || (n =? 133) || (n =? 160))%N.

(** [s.split()]: the maximal runs of non-whitespace characters. *)
Fixpoint split_go (cur : string) (s : string) : list string :=
  match s with
  | EmptyString => match cur with EmptyString => [] | _ => [cur] end
  | String c rest =>
      if is_whitespace c then
        match cur with
        | EmptyString => split_go EmptyString rest
        | _ => cur :: split_go EmptyString rest
        end
      else split_go (cur +:+ String c EmptyString) rest
  end.

Definition split (s : string) : list string := split_go EmptyString s.

(** The binaries of each build target, as [sanity_check_step] lists them. *)
Definition cp_bins : list string := ["cp.x"; "cppp.x"; "manycp.x"; "wfdd.x"].
Definition epw_bins : list string := ["epw.x"].
Definition gwl_bins : list string :=
  ["abcoeff_to_eps.x"; "bse_main.x"; "graph.x"; "gww_fit.x"; "gww.x"; "head.x"; "memory_pw4gww.x";
   "pw4gww.x"; "simple_bse.x"; "simple_ip.x"; "simple.x"].
Definition hp_bins : list string := ["hp.x"].
Definition ld1_bins : list string := ["ld1.x"].
Definition neb_bins : list string := ["neb.x"; "path_interpolation.x"].
Definition ph_bins : list string :=
  ["alpha2f.x"; "dynmat.x"; "fd_ef.x"; "fd.x"; "lambda.x"; "phcg.x"; "postahc.x"; "q2r.x"; "dvscf_q2r.x";
   "epa.x"; "fd_ifc.x"; "fqha.x"; "matdyn.x"; "ph.x"; "q2qstar.x"].
Definition pp_bins : list string :=
  ["average.x"; "dos_sp.x"; "ef.x"; "fermi_int_0.x"; "fermi_proj.x"; "fs.x"; "molecularpdos.x";
   "pawplot.x"; "plotband.x"; "plotrho.x"; "ppacf.x"; "pp.x"; "pw2bgw.x"; "pw2gt.x"; "pw2wannier90.x";
   "wannier_ham.x"; "wfck2r.x"; "bands.x"; "dos.x"; "epsilon.x"; "fermi_int_1.x"; "fermi_velocity.x";
   "initial_state.x"; "open_grid.x"; "plan_avg.x"; "plotproj.x"; "pmw.x"; "pprism.x"; "projwfc.x";
   "pw2critic.x"; "pw2gw.x"; "sumpdos.x"; "wannier_plot.x"].
Definition pw_bins : list string :=
  ["cell2ibrav.x"; "ev.x"; "ibrav2cell.x"; "kpoints.x"; "pwi2xsf.x"; "pw.x"; "scan_ibrav.x"].
Definition pwcond_bins : list string := ["pwcond.x"].
Definition tddfpt_bins : list string :=
  ["turbo_davidson.x"; "turbo_eels.x"; "turbo_lanczos.x"; "turbo_magnon.x"; "turbo_spectrum.x"].
Definition upf_bins : list string := ["upfconv.x"; "virtual_v2.x"].
Definition xspectra_bins : list string :=
  ["molecularnexafs.x"; "spectra_correction.x"; "xspectra.x"].

(** [x in targets]. *)
Definition in_targets (x : string) (targets : list string) : bool :=
  bool_decide (x ∈ targets).

(** An [if] with no [else]. *)
Definition when (b : bool) (body : M unit) : M unit :=
  if b then body else mret tt.

(** The standard binaries of [sanity_check_step] for the build targets
    [targets]. *)
Definition standard_binaries (targets : list string) : M unit :=
  let all_cond := (length targets =? 0)%nat || in_targets "all_currents" targets in
  let pwall_cond := in_targets "pwall" targets in
  when (all_cond || in_targets "cp" targets) (check_bins_extend cp_bins) ;;
  when (all_cond || in_targets "epw" targets) (check_bins_extend epw_bins) ;;
  when (all_cond || in_targets "gwl" targets) (check_bins_extend gwl_bins) ;;
  when (all_cond || in_targets "hp" targets) (check_bins_extend hp_bins) ;;
  when (all_cond || in_targets "ld1" targets) (check_bins_extend ld1_bins) ;;
  when (all_cond || pwall_cond || in_targets "neb" targets) (check_bins_extend neb_bins) ;;
  when (all_cond || pwall_cond || in_targets "ph" targets) (check_bins_extend ph_bins) ;;
  when (all_cond || pwall_cond || in_targets "pp" targets) (check_bins_extend pp_bins) ;;
  when (all_cond || pwall_cond || in_targets "pw" targets) (check_bins_extend pw_bins) ;;
  when (all_cond || pwall_cond || in_targets "pwcond" targets) (check_bins_extend pwcond_bins) ;;
  when (all_cond || in_targets "tddfpt" targets) (check_bins_extend tddfpt_bins) ;;
  when (all_cond || in_targets "upf" targets) (check_bins_extend upf_bins) ;;
  when (all_cond || in_targets "xspectra" targets) (check_bins_extend xspectra_bins).

(** [os.path.join('bin', x)]. *)
Definition bin_path (x : string) : string :=
  if String.prefix "/" x then x else "bin/" +:+ x.

(** [sanity_check_step]: the result is [custom_paths['files']], which
    the superclass's sanity check (the framework's file verification)
    receives. *)
Definition sanity_check_step (self : EasyBlock) : M (list string) :=
  let targets := split (buildopts (cfg self)) in
  standard_binaries targets ;;
  bins ← get_check_bins;
  mret (bin_path <$> bins).

(** The deriver of the spec, [derive(requested_targets, catalog, extra)]:
    the binaries [sanity_check_step] expects for the targets [targets]
    when the plugin rules left [extra] in [check_bins]. *)
Definition derive (targets extra : list string) : list string :=
  check_bins (snd (standard_binaries targets
                     {| configopts := []; check_bins := extra; environ := ∅ |})).

(** The target catalog of the spec: each target with its binaries, in
    the order of [sanity_check_step]. *)
Definition catalog : list (string * list string) :=
  [("cp", cp_bins); ("epw", epw_bins); ("gwl", gwl_bins); ("hp", hp_bins);
   ("ld1", ld1_bins); ("neb", neb_bins); ("ph", ph_bins); ("pp", pp_bins);
   ("pw", pw_bins); ("pwcond", pwcond_bins); ("tddfpt", tddfpt_bins);
   ("upf", upf_bins); ("xspectra", xspectra_bins)].

(** The sub-targets the umbrella target [pwall] stands for. *)
Definition pwall_targets : list string := ["neb"; "ph"; "pp"; "pw"; "pwcond"].

Definition catalog_bins : list string := concat (map snd catalog).

(** ** Vocabulary of the statements *)

(** The arguments a rule contributes when its condition holds. *)
Definition sel {A} (b : bool) (l : list A) : list A := if b then l else [].

(** The state after [args] were appended to [configopts]. *)
Definition add_opts (args : list string) (st : State) : State :=
  {| configopts := configopts st ++ args;
     check_bins := check_bins st;
     environ := environ st |}.

(** The state after [bins] were appended to [check_bins]. *)
Definition add_bins (bins : list string) (st : State) : State :=
  {| configopts := configopts st;
     check_bins := check_bins st ++ bins;
     environ := environ st |}.

(** The arguments of the toolchain group. *)
Definition toolchain_args (self : EasyBlock) : list string :=
  sel (usempi (toolchain self)) ["-DENABLE_MPI=ON"] ++
  sel (openmp (toolchain self)) ["-DENABLE_OPENMP=ON"] ++
  sel (with_cuda (cfg self)) ["-DQE_ENABLE_CUDA=ON"; "-DQE_ENABLE_OPENACC=ON"].

(** The arguments of the library rules that run before the ELPA rule. *)
Definition library_args_before_elpa (self : EasyBlock) : list string :=
  sel (with_scalapack (cfg self)) ["-DQE_ENABLE_SCALAPACK=ON"] ++
  sel (with_fox (cfg self)) ["-DQE_ENABLE_FOX=ON"] ++
  sel (get_software_root self "libxc") ["-DQE_ENABLE_LIBXC=ON"].

(** The arguments of the library group. *)
Definition library_args (self : EasyBlock) : list string :=
  library_args_before_elpa self ++
  sel (get_software_root self "ELPA") ["-DQE_ENABLE_ELPA=ON"] ++
  sel (get_software_root self "HDF5") ["-DQE_ENABLE_HDF5=ON"].

(** The plugin tokens and the binaries the plugin rules expect. *)
Definition plugin_tokens (self : EasyBlock) : list string :=
  sel (with_gipaw (cfg self)) ["gipaw"] ++
  sel (with_d3q (cfg self)) ["d3q"] ++
  sel (with_qmcpack (cfg self)) ["pw2qmcpack"].

Definition plugin_bins (self : EasyBlock) : list string :=
  sel (with_gipaw (cfg self)) ["gipaw.x"] ++
  sel (with_d3q (cfg self)) d3q_bins ++
  sel (with_qmcpack (cfg self)) ["pw2qmcpack.x"].

Definition plugin_args (self : EasyBlock) : list string :=
  match plugin_tokens self with
  | [] => []
  | _ :: _ => [plugins_opt (plugin_tokens self)]
  end.

(** The fixed test-infrastructure arguments. *)
Definition test_args (self : EasyBlock) : list string :=
  ["-DQE_ENABLE_TEST=ON";
   "-DTESTCODE_NPROCS=" +:+ fmt_d (test_suite_nprocs (cfg self));
   "-DQE_CLOCK_SECONDS=ON"].

(** The whole argument list of a configuration that is accepted. *)
Definition resolved_args (self : EasyBlock) : list string :=
  toolchain_args self ++ library_args self ++ plugin_args self ++ test_args self.

(** The link-time workaround on the environment. *)
Definition with_ldflags (self : EasyBlock) (st : State) : State :=
  if build_shared_libs (cfg self) && bool_decide (comp_family (toolchain self) = INTELCOMP)
  then {| configopts := configopts st;
          check_bins := check_bins st;
          environ :=
            <["LDFLAGS" := match environ st !! "LDFLAGS" with
                           | Some v => v
                           | None => EmptyString
                           end +:+ ldflags_workaround]> (environ st) |}
  else st.

(** [needle] occurs in [hay]: somewhere, as it is written. *)
Definition is_substring (needle hay : string) : Prop :=
  exists pre post, hay = pre +:+ needle +:+ post.

(** Every character of [s] satisfies [p]. *)
Fixpoint forall_chars (p : ascii -> bool) (s : string) : bool :=
  match s with
  | EmptyString => true
  | String c rest => p c && forall_chars p rest
  end.

(** The text up to its first newline. *)
Fixpoint first_line (s : string) : string :=
  match s with
  | EmptyString => EmptyString
  | String c rest => if is_newline c then EmptyString else String c (first_line rest)
  end.

(** The lines of a text as the anchor of the summary pattern sees them:
    the pieces between newlines. *)
Fixpoint regex_lines (s : string) : list string :=
  match s with
  | EmptyString => [EmptyString]
  | String c rest =>
      if is_newline c then EmptyString :: regex_lines rest
      else match regex_lines rest with
           | l :: ls => String c l :: ls
           | [] => [String c EmptyString]
           end
  end.

(** A line that matches the summary pattern
    ["<pct>% tests passed, <n> tests failed out of <total>"] with the
    digits [perc], [failed] and [total]: it starts with optional spaces,
    [perc], the first literal, spaces, [failed], spaces, the second
    literal, spaces and [total]. *)
Definition summary_fields (perc failed total line : string) : Prop :=
  exists sp sp1 sp2 sp3 rest,
    line = sp +:+ perc +:+ "% tests passed," +:+ sp1 +:+ failed +:+ sp2
           +:+ "tests failed out of" +:+ sp3 +:+ total +:+ rest /\
    forall_chars is_space sp = true /\
    (forall_chars is_digit perc = true /\ perc <> EmptyString) /\
    (forall_chars is_space sp1 = true /\ sp1 <> EmptyString) /\
    (forall_chars is_digit failed = true /\ failed <> EmptyString) /\
    (forall_chars is_space sp2 = true /\ sp2 <> EmptyString) /\
    (forall_chars is_space sp3 = true /\ sp3 <> EmptyString) /\
    (forall_chars is_digit total = true /\ total <> EmptyString).

Definition summary_line (line : string) : Prop :=
  exists perc failed total, summary_fields perc failed total line.

(** The groups of a match on the digits [perc], [failed] and [total]. *)
Definition groups_of (perc failed total : string) : Match :=
  {| perc_group := int_of_digits perc;
     failed_group := int_of_digits failed;
     total_group := int_of_digits total |}.

(** [s] is empty or starts with a character outside [p]: a greedy run of
    [p] stops before it. *)
Definition stops (p : ascii -> bool) (s : string) : Prop :=
  match s with
  | EmptyString => True
  | String c _ => p c = false
  end.

Definition not_newline (c : ascii) : bool := negb (is_newline c).

(** A summary line whose digit runs [int] converts and whose rate
    [int(perc) / 100] is a finite float: at most 300 characters. *)
Definition short_line (line : string) : Prop :=
  (String.length line <= 300)%nat.

(** A threshold between 0 and 1 written with at most fifteen decimals:
    such a threshold and a number of hundredths below it are rounded to
    two different doubles. *)
Definition short_decimal (thr : Q) : Prop :=
  (0 <= thr)%Q /\ (thr <= 1)%Q /\
  exists t : Z, (thr * inject_Z (10 ^ 15) == inject_Z t)%Q.

(** The unallowed failures as a filter of the lines. *)
Definition unallowed (allow_fail : list string) (line : string) : bool :=
  contains "***Failed" line && negb (allowed_loop allow_fail line).

(** Whether the targets [targets] select the catalog entry [name]: all
    entries when nothing or [all_currents] is requested, the sub-targets
    of [pwall] when it is, and every entry that is requested itself. *)
Definition selects (targets : list string) (name : string) : bool :=
  (length targets =? 0)%nat || in_targets "all_currents" targets
  || (existsb (String.eqb name) pwall_targets && in_targets "pwall" targets)
  || in_targets name targets.

(** The binaries of the catalog entries that [targets] select. *)
Definition selected_bins (targets : list string) : list string :=
  concat (map (fun entry => sel (selects targets (fst entry)) (snd entry)) catalog).

(** The binaries the plugin rules can leave in [check_bins] on an
    accepted configuration. *)
Definition accepted_plugin_bins : list string := ["gipaw.x"; "pw2qmcpack.x"].

(** The messages of the option resolver. *)
Definition msg_version : string :=
  "EB QuantumEspresso cmake is implemented for versions >= 7.3".
Definition msg_mpi : string := "ScaLAPACK support requires MPI".
Definition msg_elpa : string := "ELPA support requires ScaLAPACK".
Definition msg_elpa_openmp : string :=
  "QE 7.3 with cmake does not support ELPA with OpenMP".
Definition msg_gipaw : string := "GIPAW will fail to compile in QE 7.3.1".
Definition msg_d3q : string := "D3Q is not supported in QE 7.0+".

(** ** Sample inputs *)

(** The default easyconfig on an MPI and OpenMP toolchain with HDF5 and
    libxc loaded. *)
Definition qe73 : EasyBlock :=
  {| cfg := default_cfg;
     toolchain := {| usempi := true; openmp := true; comp_family := GCC |};
     version := [7; 3]%N;
     loaded := {["HDF5"; "libxc"]} |}.

(** The default easyconfig (ScaLAPACK requested) on a toolchain with
    OpenMP and without MPI, at version [v]. *)
Definition no_mpi_block (v : LooseVersion) : EasyBlock :=
  {| cfg := default_cfg;
     toolchain := {| usempi := false; openmp := true; comp_family := GCC |};
     version := v;
     loaded := ∅ |}.

Definition cfg_with (scalapack gipaw d3q : bool) : EasyConfig :=
  {| with_cuda := false;
     with_scalapack := scalapack;
     with_fox := false;
     with_gipaw := gipaw;
     with_d3q := d3q;
     with_qmcpack := false;
     test_suite_nprocs := 1;
     test_suite_allow_failures := default_allow_failures;
     test_suite_threshold := (97 # 100)%Q;
     test_suite_max_failed := 0;
     build_shared_libs := false;
     buildopts := EmptyString;
     parallel := 1 |}.

(** ScaLAPACK switched off with ELPA loaded, on an MPI toolchain. *)
Definition elpa_block : EasyBlock :=
  {| cfg := cfg_with false true false;
     toolchain := {| usempi := true; openmp := false; comp_family := GCC |};
     version := [7; 3]%N;
     loaded := {["ELPA"]} |}.

(** D3Q requested at version 7.4. *)
Definition d3q_block : EasyBlock :=
  {| cfg := cfg_with true true true;
     toolchain := {| usempi := true; openmp := false; comp_family := GCC |};
     version := [7; 4]%N;
     loaded := ∅ |}.

(** A newline. *)
Definition nl : string := String (ascii_of_nat 10) EmptyString.

(** A run whose only failure is allow-listed and whose summary reports
    74%. *)
Definition allowed_failure_output : string :=
  "635/635 Test #570: system--epw_wfpt-correctness ......***Failed    3.52 sec" +:+ nl +:+
  "74% tests passed, 124 tests failed out of 481" +:+ nl.

(** Two failing lines, the first allow-listed by [--epw_]. *)
Definition failed_lines : list string :=
  ["1/3 Test #1: system--epw_wfpt-correctness ......***Failed    3.52 sec";
   "2/3 Test #2: system--pw_scf-correctness ......***Failed    1.02 sec";
   "3/3 Test #3: system--ph_base-correctness ......   Passed    2.10 sec"].

(** An output with no summary line. *)
Definition no_summary_output : string :=
  "1/1 Test #1: system--pw_scf-correctness ......   Passed    3.52 sec" +:+ nl +:+
  "tests passed" +:+ nl.

(** Closes a goal that equates two runs from a state whose fields are
    variables, once the conditions of the rules are decided. *)
Ltac same_run :=
  unfold mbind, M_bind, mret, M_ret, raise, when, cfg_update_configopts,
    check_bins_extend, get_check_bins, add_opts, add_bins, sel;
  cbn; rewrite <- ?app_assoc, ?app_nil_r; reflexivity.

(** ** Vocabulary of the further properties *)

(** The checks of [configure_step], in the order it runs them: the
    conditions under which none of its rules raises. *)
Definition accepts (self : EasyBlock) : bool :=
  negb (version_lt (version self) [7; 3]%N)
  && negb (with_scalapack (cfg self) && negb (usempi (toolchain self)))
  && negb (get_software_root self "ELPA" && negb (with_scalapack (cfg self)))
  && negb (get_software_root self "ELPA" && version_eq (version self) [7; 3]%N
           && openmp (toolchain self))
  && negb (with_gipaw (cfg self) && version_eq (version self) [7; 3; 1]%N)
  && negb (with_d3q (cfg self)).

(** The messages of the errors the checks of [configure_step] raise. *)
Definition resolver_messages : list string :=
  [msg_version; msg_mpi; msg_elpa; msg_elpa_openmp; msg_gipaw; msg_d3q].

(** The command line [test_step] gives to the process runner. *)
Definition ctest_command (self : EasyBlock) : string :=
  "ctest -j"
  +:+ fmt_d (Z.max 1 (parallel (cfg self) / test_suite_nprocs (cfg self)))
  +:+ " --output-on-failure".

(** The number of workers [test_step] gives to the harness. *)
Definition concurrent (self : EasyBlock) : Z :=
  Z.max 1 (parallel (cfg self) / test_suite_nprocs (cfg self)).

(** The names [sanity_check_step] looks for among the targets. *)
Definition known_targets : list string :=
  "all_currents" :: "pwall" :: map fst catalog.

(** The default easyconfig with ELPA loaded on an MPI toolchain, with
    OpenMP as [omp], at version [v]. *)
Definition elpa_openmp_block (omp : bool) (v : LooseVersion) : EasyBlock :=
  {| cfg := default_cfg;
     toolchain := {| usempi := true; openmp := omp; comp_family := GCC |};
     version := v;
     loaded := {["ELPA"]} |}.

(** The default easyconfig with shared libraries on the Intel compilers. *)
Definition intel_shared_block : EasyBlock :=
  {| cfg := {| with_cuda := false; with_scalapack := true; with_fox := false;
               with_gipaw := true; with_d3q := false; with_qmcpack := false;
               test_suite_nprocs := 1;
               test_suite_allow_failures := default_allow_failures;
               test_suite_threshold := (97 # 100)%Q;
               test_suite_max_failed := 0;
               build_shared_libs := true;
               buildopts := EmptyString;
               parallel := 1 |};
     toolchain := {| usempi := true; openmp := false; comp_family := INTELCOMP |};
     version := [7; 3]%N;
     loaded := ∅ |}.

(** An easyconfig that differs from the default one in the number of
    processes per test and in the parallelism. *)
Definition nprocs_block (nprocs par : Z) : EasyBlock :=
  {| cfg := {| with_cuda := false; with_scalapack := true; with_fox := false;
               with_gipaw := true; with_d3q := false; with_qmcpack := false;
               test_suite_nprocs := nprocs;
               test_suite_allow_failures := default_allow_failures;
               test_suite_threshold := (97 # 100)%Q;
               test_suite_max_failed := 0;
               build_shared_libs := false;
               buildopts := EmptyString;
               parallel := par |};
     toolchain := {| usempi := true; openmp := false; comp_family := GCC |};
     version := [7; 3]%N;
     loaded := ∅ |}.

(** A harness that prints the same output whatever its command line is. *)
Definition fixed_harness (out : string) (cmd : string) : string * Z := (out, 0%Z).

(** A run with one failure that no default rule allows, and a rate of 98%. *)
Definition unallowed_failure_output : string :=
  "1/2 Test #1: system--pw_scf ......***Failed  1.00 sec" +:+ nl +:+
  "98% tests passed, 1 tests failed out of 50" +:+ nl.

Definition not_whitespace (c : ascii) : bool := negb (is_whitespace c).

(** A word of the build options: not empty and free of whitespace. *)
Definition target_word (w : string) : Prop :=
  w <> EmptyString /\ forall_chars not_whitespace w = true.

(** An easyblock with the build options [opts]. *)
Definition buildopts_block (opts : string) : EasyBlock :=
  {| cfg := {| with_cuda := false; with_scalapack := true; with_fox := false;
               with_gipaw := true; with_d3q := false; with_qmcpack := false;
               test_suite_nprocs := 1;
               test_suite_allow_failures := default_allow_failures;
               test_suite_threshold := (97 # 100)%Q;
               test_suite_max_failed := 0;
               build_shared_libs := false;
               buildopts := opts;
               parallel := 1 |};
     toolchain := {| usempi := true; openmp := false; comp_family := GCC |};
     version := [7; 3]%N;
     loaded := ∅ |}.

(** GIPAW and QMCPACK requested at version 7.3. *)
Definition plugins_block : EasyBlock :=
  {| cfg := {| with_cuda := false; with_scalapack := true; with_fox := false;
               with_gipaw := true; with_d3q := false; with_qmcpack := true;
               test_suite_nprocs := 1;
               test_suite_allow_failures := default_allow_failures;
               test_suite_threshold := (97 # 100)%Q;
               test_suite_max_failed := 0;
               build_shared_libs := false;
               buildopts := EmptyString;
               parallel := 1 |};
     toolchain := {| usempi := true; openmp := false; comp_family := GCC |};
     version := [7; 3]%N;
     loaded := ∅ |}.

(** Two strings differ when their characters at position [n] do. *)
Ltac differ_at n H :=
  apply (f_equal (String.get n)) in H; vm_compute in H; discriminate H.

(** The plugin argument and the test arguments are not the argument
    of a library. *)
Ltac other_argument :=
  match goal with
  | Hx : _ = plugins_opt _ |- _ => differ_at 12%nat Hx
  | Hx : _ ∈ test_args _ |- _ =>
      unfold test_args in Hx;
      repeat (apply elem_of_cons in Hx as [Hx|Hx]);
      [done|differ_at 2%nat Hx|done|by apply elem_of_nil in Hx]
  end.

(** * Properties *)

(** ** Versions *)

(** A version that is not below 7.3 is above 7.0. *)
Lemma version_gate (v : LooseVersion) :
  version_lt v [7; 3]%N = false -> version_gt v [7; 0]%N = true.
Proof.
  unfold version_lt, version_gt.
  destruct v as [|a [|b v]]; simpl; try discriminate.
  - destruct (N.compare_spec a 7); simpl; congruence.
  - destruct (N.compare_spec a 7); simpl; try congruence.
    destruct (N.compare_spec b 3), (N.compare_spec b 0); simpl;
      try congruence; try lia; destruct v; congruence.
Qed.

(** ** Runs of the option resolver *)

Lemma add_opts_nil st : add_opts [] st = st.
Proof. destruct st; unfold add_opts; simpl. by rewrite app_nil_r. Qed.

Lemma add_bins_nil st : add_bins [] st = st.
Proof. destruct st; unfold add_bins; simpl. by rewrite app_nil_r. Qed.

Lemma add_opts_app a b st : add_opts b (add_opts a st) = add_opts (a ++ b) st.
Proof. unfold add_opts; simpl. by rewrite app_assoc. Qed.

Lemma add_bins_app a b st : add_bins b (add_bins a st) = add_bins (a ++ b) st.
Proof. unfold add_bins; simpl. by rewrite app_assoc. Qed.

Lemma add_opts_bins a b st : add_opts a (add_bins b st) = add_bins b (add_opts a st).
Proof. reflexivity. Qed.

Lemma bind_run {A B} (m : M A) (f : A -> M B) st :
  (m ≫= f) st =
  match m st with
  | (Returned a, st') => f a st'
  | (Raised e, st') => (Raised e, st')
  end.
Proof. reflexivity. Qed.

Lemma run_toolchains_opts self st :
  _add_toolchains_opts self st = (Returned tt, add_opts (toolchain_args self) st).
Proof.
  destruct st as [opts bins env].
  unfold _add_toolchains_opts, _add_mpi, _add_openmp, _add_cuda, toolchain_args.
  destruct (usempi _), (openmp _), (with_cuda _); same_run.
Qed.

Lemma run_update arg st :
  cfg_update_configopts arg st = (Returned tt, add_opts [arg] st).
Proof. reflexivity. Qed.

Lemma run_extend bins st :
  check_bins_extend bins st = (Returned tt, add_bins bins st).
Proof. reflexivity. Qed.

Lemma run_ret {A} (a : A) st : mret (M := M) a st = (Returned a, st).
Proof. reflexivity. Qed.

Lemma run_raise {A} e st : raise (A := A) e st = (Raised e, st).
Proof. reflexivity. Qed.

(** A rule that appends one argument when its condition holds. *)
Lemma run_flag (b : bool) arg st :
  (if b then cfg_update_configopts arg else mret tt) st =
  (Returned tt, add_opts (sel b [arg]) st).
Proof. destruct b; [reflexivity|]. by rewrite run_ret, add_opts_nil. Qed.

Lemma run_scalapack self st :
  _add_scalapack self st =
  if with_scalapack (cfg self) && negb (usempi (toolchain self)) then
    (Raised (EasyBuildError msg_mpi), st)
  else (Returned tt, add_opts (sel (with_scalapack (cfg self)) ["-DQE_ENABLE_SCALAPACK=ON"]) st).
Proof.
  unfold _add_scalapack.
  destruct (with_scalapack _), (usempi _); cbn [andb negb sel];
    rewrite ?add_opts_nil; reflexivity.
Qed.

Lemma run_elpa self st :
  _add_elpa self st =
  if get_software_root self "ELPA" && negb (with_scalapack (cfg self)) then
    (Raised (EasyBuildError msg_elpa), st)
  else if get_software_root self "ELPA" && version_eq (version self) [7; 3]%N
          && openmp (toolchain self) then
    (Raised (EasyBuildError msg_elpa_openmp), st)
  else (Returned tt, add_opts (sel (get_software_root self "ELPA") ["-DQE_ENABLE_ELPA=ON"]) st).
Proof.
  unfold _add_elpa.
  destruct (get_software_root self "ELPA"), (with_scalapack _), (version_eq _ _), (openmp _);
    cbn [andb negb sel]; rewrite ?add_opts_nil; reflexivity.
Qed.

Lemma run_libraries self st :
  _add_libraries self st =
  if with_scalapack (cfg self) && negb (usempi (toolchain self)) then
    (Raised (EasyBuildError msg_mpi), st)
  else if get_software_root self "ELPA" && negb (with_scalapack (cfg self)) then
    (Raised (EasyBuildError msg_elpa), add_opts (library_args_before_elpa self) st)
  else if get_software_root self "ELPA" && version_eq (version self) [7; 3]%N
          && openmp (toolchain self) then
    (Raised (EasyBuildError msg_elpa_openmp), add_opts (library_args_before_elpa self) st)
  else (Returned tt, add_opts (library_args self) st).
Proof.
  unfold _add_libraries, _add_fox, _add_libxc, _add_hdf5, library_args,
    library_args_before_elpa.
  rewrite bind_run, run_scalapack.
  destruct (_ && negb (usempi _)); [reflexivity|].
  rewrite bind_run, run_flag, bind_run, run_flag, bind_run, run_elpa.
  rewrite !add_opts_app.
  destruct (_ && negb (with_scalapack _)); [reflexivity|].
  destruct (_ && _ && openmp _); [reflexivity|].
  by rewrite run_flag, !add_opts_app, <- !app_assoc.
Qed.

Lemma run_gipaw self st :
  _add_gipaw self st =
  if with_gipaw (cfg self) && version_eq (version self) [7; 3; 1]%N then
    (Raised (EasyBuildError msg_gipaw), st)
  else (Returned (sel (with_gipaw (cfg self)) ["gipaw"]),
        add_bins (sel (with_gipaw (cfg self)) ["gipaw.x"]) st).
Proof.
  unfold _add_gipaw.
  destruct (with_gipaw _), (version_eq _ _); cbn [andb sel];
    rewrite ?add_bins_nil; reflexivity.
Qed.

Lemma run_d3q self st :
  _add_d3q self st =
  if with_d3q (cfg self) && version_gt (version self) [7; 0]%N then
    (Raised (EasyBuildError msg_d3q), st)
  else (Returned (sel (with_d3q (cfg self)) ["d3q"]),
        add_bins (sel (with_d3q (cfg self)) d3q_bins) st).
Proof.
  unfold _add_d3q.
  destruct (with_d3q _), (version_gt _ _); cbn [andb sel];
    rewrite ?add_bins_nil; reflexivity.
Qed.

Lemma run_qmcpack self st :
  _add_qmcpack self st =
  (Returned (sel (with_qmcpack (cfg self)) ["pw2qmcpack"]),
   add_bins (sel (with_qmcpack (cfg self)) ["pw2qmcpack.x"]) st).
Proof.
  unfold _add_qmcpack.
  destruct (with_qmcpack _); cbn [sel]; rewrite ?add_bins_nil; reflexivity.
Qed.

Lemma run_plugins self st :
  _add_plugins self st =
  if with_gipaw (cfg self) && version_eq (version self) [7; 3; 1]%N then
    (Raised (EasyBuildError msg_gipaw), st)
  else if with_d3q (cfg self) && version_gt (version self) [7; 0]%N then
    (Raised (EasyBuildError msg_d3q),
     add_bins (sel (with_gipaw (cfg self)) ["gipaw.x"]) st)
  else (Returned tt, add_opts (plugin_args self) (add_bins (plugin_bins self) st)).
Proof.
  unfold _add_plugins.
  rewrite bind_run, run_gipaw.
  destruct (with_gipaw _ && _); [reflexivity|].
  rewrite bind_run, run_d3q.
  destruct (with_d3q _ && _); [reflexivity|].
  rewrite bind_run, run_qmcpack, !add_bins_app.
  unfold plugin_args, plugin_tokens, plugin_bins. cbn [app].
  rewrite <- (app_assoc (sel _ ["gipaw"])).
  destruct (sel _ ["gipaw"] ++ _ ++ _); [by rewrite run_ret, add_opts_nil|].
  reflexivity.
Qed.

(** The run of [configure_step] in closed form: which check raises, and
    the state each outcome leaves. *)
Lemma run_configure self st :
  configure_step self st =
  if version_lt (version self) [7; 3]%N then
    (Raised (EasyBuildError msg_version), st)
  else if with_scalapack (cfg self) && negb (usempi (toolchain self)) then
    (Raised (EasyBuildError msg_mpi), add_opts (toolchain_args self) st)
  else if get_software_root self "ELPA" && negb (with_scalapack (cfg self)) then
    (Raised (EasyBuildError msg_elpa),
     add_opts (toolchain_args self ++ library_args_before_elpa self) st)
  else if get_software_root self "ELPA" && version_eq (version self) [7; 3]%N
          && openmp (toolchain self) then
    (Raised (EasyBuildError msg_elpa_openmp),
     add_opts (toolchain_args self ++ library_args_before_elpa self) st)
  else if with_gipaw (cfg self) && version_eq (version self) [7; 3; 1]%N then
    (Raised (EasyBuildError msg_gipaw),
     add_opts (toolchain_args self ++ library_args self) st)
  else if with_d3q (cfg self) && version_gt (version self) [7; 0]%N then
    (Raised (EasyBuildError msg_d3q),
     add_bins (sel (with_gipaw (cfg self)) ["gipaw.x"])
       (add_opts (toolchain_args self ++ library_args self) st))
  else
    (Returned tt,
     with_ldflags self (add_opts (resolved_args self) (add_bins (plugin_bins self) st))).
Proof.
  unfold configure_step.
  destruct (version_lt _ _); [reflexivity|].
  rewrite bind_run, run_toolchains_opts, bind_run, run_libraries.
  destruct (with_scalapack _ && _); [reflexivity|].
  rewrite !add_opts_app.
  destruct (_ && negb (with_scalapack _)); [reflexivity|].
  destruct (_ && _ && openmp _); [reflexivity|].
  rewrite bind_run, run_plugins.
  destruct (with_gipaw _ && _); [reflexivity|].
  destruct (with_d3q _ && _); [reflexivity|].
  unfold resolved_args, test_args, with_ldflags.
  destruct (build_shared_libs _ && _);
    repeat (rewrite bind_run, run_update);
    rewrite <- !add_opts_bins, !add_opts_app, <- !app_assoc;
    reflexivity.
Qed.

(** ** The option resolver: failures *)

(** C1 (counterexample): with ScaLAPACK requested on a toolchain with
    OpenMP and without MPI, [configure_step] raises the MPI error after
    the OpenMP argument was appended: the accumulated list is not the one
    from before the call. *)
Lemma C1_counterexample :
  configure_step (no_mpi_block [7; 3]%N) (init_state [] ∅) =
    (Raised (EasyBuildError msg_mpi),
     {| configopts := ["-DENABLE_OPENMP=ON"]; check_bins := []; environ := ∅ |})
  /\ {| configopts := ["-DENABLE_OPENMP=ON"]; check_bins := []; environ := ∅ |}
     <> init_state [] ∅.
Proof. split; [reflexivity | discriminate]. Qed.

(** C1 (amended): when [configure_step] raises, the state is unchanged
    only for the minimum-version check.  A later rule validates before it
    appends its own argument, and the arguments of the rules before it
    stay appended: the toolchain arguments after the MPI failure; the
    toolchain, ScaLAPACK, FoX and LibXC arguments after an ELPA failure;
    the toolchain and library arguments after a plugin failure, with
    [gipaw.x] already expected when D3Q fails after GIPAW.  The plugin
    argument, the test arguments and the LDFLAGS change are never
    applied. *)
Theorem C1_failure_state self st e st' :
  configure_step self st = (Raised e, st') ->
  (e = EasyBuildError msg_version /\ st' = st) \/
  (e = EasyBuildError msg_mpi /\ st' = add_opts (toolchain_args self) st) \/
  ((e = EasyBuildError msg_elpa \/ e = EasyBuildError msg_elpa_openmp) /\
   st' = add_opts (toolchain_args self ++ library_args_before_elpa self) st) \/
  (e = EasyBuildError msg_gipaw /\
   st' = add_opts (toolchain_args self ++ library_args self) st) \/
  (e = EasyBuildError msg_d3q /\
   st' = add_bins (sel (with_gipaw (cfg self)) ["gipaw.x"])
           (add_opts (toolchain_args self ++ library_args self) st)).
Proof.
  rewrite run_configure.
  repeat match goal with
         | |- context [if ?c then _ else _] => destruct c
         end;
    intros [= <- <-]; tauto.
Qed.

(** The MPI failure of [C1_counterexample], read through the theorem. *)
Lemma C1_failure_state_witness :
  let self := no_mpi_block [7; 3]%N in
  let st := init_state [] ∅ in
  let e := EasyBuildError msg_mpi in
  let st' := add_opts ["-DENABLE_OPENMP=ON"] st in
  (e = EasyBuildError msg_version /\ st' = st) \/
  (e = EasyBuildError msg_mpi /\ st' = add_opts (toolchain_args self) st) \/
  ((e = EasyBuildError msg_elpa \/ e = EasyBuildError msg_elpa_openmp) /\
   st' = add_opts (toolchain_args self ++ library_args_before_elpa self) st) \/
  (e = EasyBuildError msg_gipaw /\
   st' = add_opts (toolchain_args self ++ library_args self) st) \/
  (e = EasyBuildError msg_d3q /\
   st' = add_bins (sel (with_gipaw (cfg self)) ["gipaw.x"])
           (add_opts (toolchain_args self ++ library_args self) st)).
Proof.
  exact (C1_failure_state (no_mpi_block [7; 3]%N) (init_state [] ∅)
           (EasyBuildError msg_mpi) (add_opts ["-DENABLE_OPENMP=ON"] (init_state [] ∅))
           eq_refl).
Defined.

(** C5 (counterexample): at version 7.2, with ScaLAPACK requested and MPI
    disabled, the error raised is the minimum-version one, whose message
    does not mention MPI. *)
Lemma C5_counterexample :
  with_scalapack (cfg (no_mpi_block [7; 2]%N)) = true /\
  usempi (toolchain (no_mpi_block [7; 2]%N)) = false /\
  fst (configure_step (no_mpi_block [7; 2]%N) (init_state [] ∅)) =
    Raised (EasyBuildError msg_version) /\
  contains "MPI" msg_version = false.
Proof. repeat split; reflexivity. Qed.

(** C5 (amended): with ScaLAPACK requested and MPI disabled,
    [configure_step] always raises an [EasyBuildError]: the one citing
    the MPI requirement when the version is not below 7.3, the
    minimum-version one when it is. *)
Theorem C5_scalapack_requires_mpi self st :
  with_scalapack (cfg self) = true ->
  usempi (toolchain self) = false ->
  fst (configure_step self st) =
    Raised (EasyBuildError
              (if version_lt (version self) [7; 3]%N then msg_version else msg_mpi))
  /\ contains "MPI" msg_mpi = true.
Proof.
  intros Hs Hm. split; [|reflexivity].
  rewrite run_configure, Hs, Hm.
  destruct (version_lt _ _); reflexivity.
Qed.

(** At version 7.3 the error is the one that cites MPI. *)
Lemma C5_scalapack_requires_mpi_witness :
  fst (configure_step (no_mpi_block [7; 3]%N) (init_state [] ∅)) =
    Raised (EasyBuildError msg_mpi)
  /\ contains "MPI" msg_mpi = true.
Proof.
  exact (C5_scalapack_requires_mpi (no_mpi_block [7; 3]%N) (init_state [] ∅)
           eq_refl eq_refl).
Defined.

(** C6: with ScaLAPACK switched off and ELPA among the loaded
    dependencies, [configure_step] raises an [EasyBuildError] whatever
    the other inputs are; past the version check it is the ELPA one. *)
Theorem C6_elpa_requires_scalapack self st :
  with_scalapack (cfg self) = false ->
  "ELPA" ∈ loaded self ->
  exists msg,
    fst (configure_step self st) = Raised (EasyBuildError msg) /\
    (version_lt (version self) [7; 3]%N = false -> msg = msg_elpa).
Proof.
  intros Hs He.
  assert (get_software_root self "ELPA" = true) as Hroot
    by (unfold get_software_root; by apply bool_decide_eq_true_2).
  rewrite run_configure, Hs, Hroot.
  destruct (version_lt _ _); cbn; eauto.
  eexists; split; [reflexivity|discriminate].
Qed.

(** ELPA loaded with ScaLAPACK switched off, at version 7.3. *)
Lemma C6_elpa_requires_scalapack_witness :
  exists msg,
    fst (configure_step elpa_block (init_state [] ∅)) = Raised (EasyBuildError msg) /\
    (version_lt (version elpa_block) [7; 3]%N = false -> msg = msg_elpa).
Proof.
  apply (C6_elpa_requires_scalapack elpa_block (init_state [] ∅)).
  - reflexivity.
  - cbn. apply elem_of_singleton. reflexivity.
Defined.

(** C10: with D3Q requested, [configure_step] raises an [EasyBuildError]
    at every version that passes the minimum-version check: such a
    version is above 7.0, where the D3Q rule itself raises. *)
Theorem C10_d3q_never_accepted self st :
  with_d3q (cfg self) = true ->
  version_lt (version self) [7; 3]%N = false ->
  (exists msg, fst (configure_step self st) = Raised (EasyBuildError msg)) /\
  fst (_add_d3q self st) = Raised (EasyBuildError msg_d3q).
Proof.
  intros Hd Hv. pose proof (version_gate _ Hv) as Hgt. split.
  - rewrite run_configure, Hv, Hd, Hgt. cbn [andb].
    repeat match goal with
           | |- context [if ?c then _ else _] => destruct c
           end; eauto.
  - by rewrite run_d3q, Hd, Hgt.
Qed.

(** D3Q requested at version 7.4. *)
Lemma C10_d3q_never_accepted_witness :
  (exists msg, fst (configure_step d3q_block (init_state [] ∅)) = Raised (EasyBuildError msg)) /\
  fst (_add_d3q d3q_block (init_state [] ∅)) = Raised (EasyBuildError msg_d3q).
Proof.
  exact (C10_d3q_never_accepted d3q_block (init_state [] ∅) eq_refl eq_refl).
Defined.

(** ** Strings *)

Lemma app_cons c (s t : string) : String c s +:+ t = String c (s +:+ t).
Proof. reflexivity. Qed.

Lemma app_empty_l (s : string) : EmptyString +:+ s = s.
Proof. reflexivity. Qed.

Lemma app_empty_r (s : string) : s +:+ EmptyString = s.
Proof. induction s as [|c s IH]; [reflexivity|]. by rewrite app_cons, IH. Qed.

Lemma string_app_assoc (s t u : string) : (s +:+ t) +:+ u = s +:+ (t +:+ u).
Proof. induction s as [|c s IH]; [reflexivity|]. by rewrite !app_cons, IH. Qed.

Lemma prefix_spec (a l : string) :
  String.prefix a l = true <-> exists post, l = a +:+ post.
Proof.
  revert l. induction a as [|c a IH]; intros l.
  - destruct l; simpl; split; eauto.
  - destruct l as [|d l]; simpl.
    + split; [discriminate|]. intros [post H]. rewrite app_cons in H. discriminate.
    + destruct (ascii_dec c d) as [->|Hne].
      * rewrite IH. split; intros [post H]; exists post.
        -- by rewrite app_cons, H.
        -- rewrite app_cons in H. by injection H.
      * split; [discriminate|]. intros [post H]. rewrite app_cons in H.
        injection H as <- _. by destruct Hne.
Qed.

(** [contains] decides plain substring occurrence. *)
Lemma contains_spec (a l : string) : contains a l = true <-> is_substring a l.
Proof.
  unfold is_substring. induction l as [|c l IH].
  - cbn [contains]. rewrite orb_false_r, prefix_spec. split.
    + intros [post H]. by exists EmptyString, post.
    + intros ([|d pre] & post & H); [by exists post|].
      rewrite app_cons in H. discriminate.
  - cbn [contains]. rewrite orb_true_iff, prefix_spec, IH. split.
    + intros [[post H]|(pre & post & H)].
      * by exists EmptyString, post.
      * exists (String c pre), post. by rewrite app_cons, H.
    + intros ([|d pre] & post & H).
      * left. by exists post.
      * right. rewrite app_cons in H. injection H as _ H. by exists pre, post.
Qed.

(** ** The failure scan *)

Lemma allowed_loop_spec (allow_fail : list string) (line : string) :
  allowed_loop allow_fail line = true <->
  exists allowed, allowed ∈ allow_fail /\ is_substring allowed line.
Proof.
  induction allow_fail as [|a allow IH]; cbn [allowed_loop].
  - split; [discriminate|]. intros (x & Hx & _). by apply elem_of_nil in Hx.
  - destruct (contains a line) eqn:Ha.
    + split; [|done]. intros _. exists a. split; [left|by apply contains_spec].
    + rewrite IH. split; intros (x & Hx & Hsub); exists x.
      * split; [by right|done].
      * apply elem_of_cons in Hx as [->|Hx]; [|done].
        apply contains_spec in Hsub. congruence.
Qed.

Lemma scan_from (allow_fail lines acc : list string) :
  fold_left (scan_line allow_fail) lines acc =
  acc ++ List.filter (unallowed allow_fail) lines.
Proof.
  revert acc. induction lines as [|line lines IH]; intros acc; cbn [fold_left List.filter].
  - by rewrite app_nil_r.
  - rewrite IH. unfold scan_line, unallowed.
    destruct (contains "***Failed" line), (allowed_loop allow_fail line);
      cbn [andb negb]; by rewrite <- ?app_assoc.
Qed.

(** The scan keeps the lines in their order, each as often as it occurs. *)
Lemma scan_failures_filter (allow_fail lines : list string) :
  scan_failures allow_fail lines = List.filter (unallowed allow_fail) lines.
Proof. unfold scan_failures. by rewrite scan_from. Qed.

Lemma allowed_loop_same (allow allow' : list string) (line : string) :
  (forall a, a ∈ allow <-> a ∈ allow') ->
  allowed_loop allow line = allowed_loop allow' line.
Proof.
  intros Hsame. apply eq_true_iff_eq. rewrite !allowed_loop_spec.
  split; intros (a & Ha & Hsub); exists a; split; try done; by apply Hsame.
Qed.

(** C4: a line is among the unallowed failures exactly when it is a line
    of the output that contains the marker and no allow rule occurs in
    it as a plain substring; rules in another order give the same list. *)
Theorem C4_unallowed_iff (allow_fail lines : list string) (line : string) :
  (line ∈ scan_failures allow_fail lines <->
   line ∈ lines /\ is_substring "***Failed" line /\
   forall allowed, allowed ∈ allow_fail -> ~ is_substring allowed line) /\
  (forall allow_fail', allow_fail ≡ₚ allow_fail' ->
     scan_failures allow_fail lines = scan_failures allow_fail' lines).
Proof.
  split.
  - rewrite scan_failures_filter, list_elem_of_In, filter_In, <- list_elem_of_In.
    unfold unallowed. rewrite andb_true_iff, negb_true_iff, contains_spec.
    split; intros (Hin & Hmark & Hno); repeat split; try done.
    + intros a Ha Hsub.
      assert (allowed_loop allow_fail line = true) by (apply allowed_loop_spec; eauto).
      congruence.
    + destruct (allowed_loop allow_fail line) eqn:Hloop; [|done].
      apply allowed_loop_spec in Hloop as (a & Ha & Hsub). by destruct (Hno a Ha).
  - intros allow' Hperm. rewrite !scan_failures_filter.
    apply filter_ext. intros l. unfold unallowed. f_equal. f_equal.
    apply allowed_loop_same. intros a. by rewrite Hperm.
Qed.

(** Two allow rules in either order leave the same unallowed failures. *)
Lemma C4_unallowed_iff_witness :
  scan_failures ["--hp_"; "--epw_"] failed_lines =
  scan_failures ["--epw_"; "--hp_"] failed_lines.
Proof.
  exact (proj2 (C4_unallowed_iff ["--hp_"; "--epw_"] failed_lines EmptyString)
           ["--epw_"; "--hp_"] (perm_swap "--epw_" "--hp_" [])).
Defined.

Example scan_failed_lines :
  scan_failures ["--hp_"; "--epw_"] failed_lines =
  ["2/3 Test #2: system--pw_scf-correctness ......***Failed    1.02 sec"].
Proof. reflexivity. Qed.

(** ** The summary pattern *)

Section Span.
  Context (p : ascii -> bool).

Lemma span_spec s run tl :
  span p s = (run, tl) -> s = run +:+ tl /\ forall_chars p run = true.
Proof.
  revert run tl. induction s as [|c s IH]; intros run tl; cbn [span].
  - by intros [= <- <-].
  - destruct (p c) eqn:Hc; [|by intros [= <- <-]].
    destruct (span p s) as [run' tl'] eqn:Hs. intros [= <- <-].
    destruct (IH _ _ eq_refl) as [-> Hall].
    split; [reflexivity|]. cbn [forall_chars]. by rewrite Hc, Hall.
Qed.

Lemma span1_spec s run tl :
  span1 p s = Some (run, tl) ->
  s = run +:+ tl /\ forall_chars p run = true /\ run <> EmptyString.
Proof.
  unfold span1. destruct (span p s) as [[|c run'] tl'] eqn:Hs; [discriminate|].
  intros [= <- <-]. destruct (span_spec _ _ _ Hs). done.
Qed.

Lemma strip_prefix_spec lit s tl :
  strip_prefix lit s = Some tl <-> s = lit +:+ tl.
Proof.
  revert s. induction lit as [|a lit IH]; intros s; cbn [strip_prefix].
  - rewrite app_empty_l. split; [by intros [= ->]|by intros ->].
  - rewrite app_cons. destruct s as [|b s]; [split; discriminate|].
    destruct (Ascii.eqb_spec a b) as [->|Hne].
    + rewrite IH. split; [by intros ->|by intros [= ->]].
    + split; [discriminate|]. intros [= Hab _]. by destruct Hne.
Qed.

Lemma span_app run tl :
  forall_chars p run = true -> stops p tl -> span p (run +:+ tl) = (run, tl).
Proof.
  intros Hall Hstop. induction run as [|c run IH].
  - rewrite app_empty_l. destruct tl as [|c tl]; [reflexivity|].
    cbn [span]. cbn [stops] in Hstop. by rewrite Hstop.
  - cbn [forall_chars] in Hall. apply andb_true_iff in Hall as [Hc Hall].
    rewrite app_cons. cbn [span]. by rewrite Hc, (IH Hall).
Qed.

Lemma span1_app run tl :
  forall_chars p run = true -> run <> EmptyString -> stops p tl ->
  span1 p (run +:+ tl) = Some (run, tl).
Proof.
  intros Hall Hne Hstop. unfold span1. rewrite (span_app _ _ Hall Hstop).
  by destruct run.
Qed.

Lemma span1_head run tl :
  forall_chars p run = true -> run <> EmptyString ->
  exists run' tl', span1 p (run +:+ tl) = Some (run', tl').
Proof.
  intros Hall Hne. destruct run as [|c run]; [done|].
  cbn [forall_chars] in Hall. apply andb_true_iff in Hall as [Hc _].
  unfold span1. rewrite app_cons. cbn [span]. rewrite Hc.
  destruct (span p (run +:+ tl)) as [run' tl']. eauto.
Qed.

End Span.

(** A non-empty run of [q] stops a run of [p] when no character is in both. *)
Lemma stops_run p q run tl :
  (forall c, q c = true -> p c = false) ->
  forall_chars q run = true -> run <> EmptyString -> stops p (run +:+ tl).
Proof.
  intros Hpq Hall Hne. destruct run as [|c run]; [done|].
  cbn [forall_chars] in Hall. apply andb_true_iff in Hall as [Hc _].
  rewrite app_cons. cbn [stops]. by apply Hpq.
Qed.

Lemma digit_not_space c : is_digit c = true -> is_space c = false.
Proof.
  unfold is_digit, is_space. intros H.
  apply andb_true_iff in H as [H1 _]. apply N.leb_le in H1.
  apply N.eqb_neq. lia.
Qed.

Lemma space_not_digit c : is_space c = true -> is_digit c = false.
Proof.
  unfold is_digit, is_space. intros H. apply N.eqb_eq in H. by rewrite H.
Qed.

Lemma space_not_newline c : is_space c = true -> not_newline c = true.
Proof.
  unfold not_newline, is_newline, is_space. intros H. apply N.eqb_eq in H. by rewrite H.
Qed.

Lemma digit_not_newline c : is_digit c = true -> not_newline c = true.
Proof.
  unfold not_newline, is_newline, is_digit. intros H.
  apply andb_true_iff in H as [H1 _]. apply N.leb_le in H1.
  apply negb_true_iff, N.eqb_neq. lia.
Qed.

Lemma forall_chars_impl (p q : ascii -> bool) s :
  (forall c, p c = true -> q c = true) ->
  forall_chars p s = true -> forall_chars q s = true.
Proof.
  intros Hpq. induction s as [|c s IH]; [done|]. cbn [forall_chars].
  rewrite !andb_true_iff. intros [Hc Hs]. auto.
Qed.

(** The matcher succeeds only on a text that starts as the pattern says,
    and its groups are the numbers written there. *)
Lemma match_rgx_sound s m :
  match_rgx s = Some m ->
  exists perc failed total,
    summary_fields perc failed total s /\ m = groups_of perc failed total.
Proof.
  unfold match_rgx.
  destruct (span is_space s) as [sp s0] eqn:E0.
  destruct (span1 is_digit s0) as [[perc s1]|] eqn:E1; [|discriminate].
  cbn [mbind option_bind].
  destruct (strip_prefix "% tests passed," s1) as [s2|] eqn:E2; [|discriminate].
  cbn [mbind option_bind].
  destruct (span1 is_space s2) as [[sp1 s3]|] eqn:E3; [|discriminate].
  cbn [mbind option_bind].
  destruct (span1 is_digit s3) as [[failed s4]|] eqn:E4; [|discriminate].
  cbn [mbind option_bind].
  destruct (span1 is_space s4) as [[sp2 s5]|] eqn:E5; [|discriminate].
  cbn [mbind option_bind].
  destruct (strip_prefix "tests failed out of" s5) as [s6|] eqn:E6; [|discriminate].
  cbn [mbind option_bind].
  destruct (span1 is_space s6) as [[sp3 s7]|] eqn:E7; [|discriminate].
  cbn [mbind option_bind].
  destruct (span1 is_digit s7) as [[total s8]|] eqn:E8; [|discriminate].
  intros [= <-].
  apply span_spec in E0 as [-> Hsp].
  apply span1_spec in E1 as (-> & Hperc).
  apply strip_prefix_spec in E2 as ->.
  apply span1_spec in E3 as (-> & Hsp1).
  apply span1_spec in E4 as (-> & Hfailed).
  apply span1_spec in E5 as (-> & Hsp2).
  apply strip_prefix_spec in E6 as ->.
  apply span1_spec in E7 as (-> & Hsp3).
  apply span1_spec in E8 as (-> & Htotal).
  exists perc, failed, total. split; [|reflexivity].
  exists sp, sp1, sp2, sp3, s8. done.
Qed.

(** The matcher succeeds on every text that starts as the pattern says;
    the digits of the rate and of the failure count are the ones of the
    text. *)
Lemma match_rgx_complete s perc failed total :
  summary_fields perc failed total s ->
  exists m, match_rgx s = Some m /\
            perc_group m = int_of_digits perc /\
            failed_group m = int_of_digits failed.
Proof.
  intros (sp & sp1 & sp2 & sp3 & rest & -> & Hsp &
          [Hperc Hperc'] & [Hsp1 Hsp1'] & [Hfailed Hfailed'] & [Hsp2 Hsp2'] &
          [Hsp3 Hsp3'] & [Htotal Htotal']).
  unfold match_rgx.
  rewrite (span_app is_space sp); [|done|by eapply stops_run, Hperc'; [apply digit_not_space|]].
  rewrite (span1_app is_digit perc); [|done..|reflexivity].
  cbn [mbind option_bind].
  rewrite (proj2 (strip_prefix_spec _ _ _) eq_refl).
  cbn [mbind option_bind].
  rewrite (span1_app is_space sp1);
    [|done..|by eapply stops_run, Hfailed'; [apply digit_not_space|]].
  cbn [mbind option_bind].
  rewrite (span1_app is_digit failed);
    [|done..|by eapply stops_run, Hsp2'; [apply space_not_digit|]].
  cbn [mbind option_bind].
  rewrite (span1_app is_space sp2); [|done..|reflexivity].
  cbn [mbind option_bind].
  rewrite (proj2 (strip_prefix_spec _ _ _) eq_refl).
  cbn [mbind option_bind].
  rewrite (span1_app is_space sp3);
    [|done..|by eapply stops_run, Htotal'; [apply digit_not_space|]].
  cbn [mbind option_bind].
  destruct (span1_head is_digit total rest Htotal Htotal') as (run & tl & ->).
  cbn [mbind option_bind]. eauto.
Qed.

(** ** Lines and the search *)

Lemma first_line_app a b :
  forall_chars not_newline a = true -> first_line (a +:+ b) = a +:+ first_line b.
Proof.
  induction a as [|c a IH]; [done|]. cbn [forall_chars].
  intros [Hc Ha]%andb_true_iff. rewrite !app_cons. cbn [first_line].
  unfold not_newline in Hc. apply negb_true_iff in Hc. by rewrite Hc, IH.
Qed.

Lemma first_line_split s : exists tl, s = first_line s +:+ tl.
Proof.
  induction s as [|c s [tl IH]]; [by exists EmptyString|]. cbn [first_line].
  destruct (is_newline c).
  - by exists (String c s).
  - exists tl. by rewrite app_cons, <- IH.
Qed.

Lemma regex_lines_head s : exists ls, regex_lines s = first_line s :: ls.
Proof.
  induction s as [|c s [ls IH]]; [by exists []|]. cbn [regex_lines first_line].
  destruct (is_newline c); [eauto|]. rewrite IH. eauto.
Qed.

(** Whether a text starts as the pattern says is decided on its first
    line: the pattern has no newline. *)
Lemma summary_fields_first_line perc failed total s :
  summary_fields perc failed total s <->
  summary_fields perc failed total (first_line s).
Proof.
  split.
  - intros (sp & sp1 & sp2 & sp3 & rest & -> & Hsp &
            [Hperc Hperc'] & [Hsp1 Hsp1'] & [Hfailed Hfailed'] & [Hsp2 Hsp2'] &
            [Hsp3 Hsp3'] & [Htotal Htotal']).
    exists sp, sp1, sp2, sp3, (first_line rest).
    split; [|done].
    rewrite (first_line_app sp) by (by eapply forall_chars_impl, Hsp; apply space_not_newline).
    rewrite (first_line_app perc) by (by eapply forall_chars_impl, Hperc; apply digit_not_newline).
    rewrite (first_line_app "% tests passed,") by reflexivity.
    rewrite (first_line_app sp1) by (by eapply forall_chars_impl, Hsp1; apply space_not_newline).
    rewrite (first_line_app failed)
      by (by eapply forall_chars_impl, Hfailed; apply digit_not_newline).
    rewrite (first_line_app sp2) by (by eapply forall_chars_impl, Hsp2; apply space_not_newline).
    rewrite (first_line_app "tests failed out of") by reflexivity.
    rewrite (first_line_app sp3) by (by eapply forall_chars_impl, Hsp3; apply space_not_newline).
    rewrite (first_line_app total)
      by (by eapply forall_chars_impl, Htotal; apply digit_not_newline).
    reflexivity.
  - intros (sp & sp1 & sp2 & sp3 & rest & Hline & Hrest).
    destruct (first_line_split s) as [tl Hs].
    exists sp, sp1, sp2, sp3, (rest +:+ tl).
    split; [|done]. rewrite Hs at 1. rewrite Hline.
    by rewrite !string_app_assoc.
Qed.

Lemma summary_first_line s : summary_line s <-> summary_line (first_line s).
Proof.
  unfold summary_line.
  split; intros (perc & failed & total & H); exists perc, failed, total.
  - by apply (proj1 (summary_fields_first_line _ _ _ _)).
  - by apply (proj2 (summary_fields_first_line _ _ _ _)).
Qed.

Lemma match_rgx_none s : match_rgx s = None <-> ~ summary_line s.
Proof.
  split.
  - intros Hnone (perc & failed & total & H).
    apply match_rgx_complete in H as (m & Hm & _). congruence.
  - intros Hno. destruct (match_rgx s) as [m|] eqn:Hm; [|done].
    destruct Hno. apply match_rgx_sound in Hm as (perc & failed & total & H & _).
    by exists perc, failed, total.
Qed.

(** The lines at whose start the search tries the pattern, given whether
    the text starts at the beginning of a line. *)
Lemma re_search_none at_bol out :
  re_search at_bol out = None <->
  forall line,
    line ∈ (if at_bol then regex_lines out else tail (regex_lines out)) ->
    ~ summary_line line.
Proof.
  revert at_bol. induction out as [|c out IH]; intros at_bol.
  - cbn [re_search regex_lines tail]. destruct at_bol.
    + split.
      * intros _ line ->%list_elem_of_singleton Hline.
        by apply (proj1 (match_rgx_none EmptyString)) in Hline.
      * intros _. reflexivity.
    + split; [|done]. intros _ line Hin. by apply elem_of_nil in Hin.
  - cbn [re_search].
    destruct (regex_lines_head out) as [ls Hls].
    assert (forall line, line ∈ tail (regex_lines (String c out)) <->
                         line ∈ (if is_newline c then regex_lines out
                                 else tail (regex_lines out))) as Htail.
    { intros line. cbn [regex_lines]. destruct (is_newline c); [done|].
      by rewrite Hls. }
    assert (regex_lines (String c out) =
            first_line (String c out) :: tail (regex_lines (String c out))) as Hhead.
    { destruct (regex_lines_head (String c out)) as [ls' ->]. done. }
    destruct at_bol.
    + destruct (match_rgx (String c out)) as [m|] eqn:Hm.
      * split; [discriminate|]. intros Hno. exfalso.
        apply (Hno (first_line (String c out))).
        -- rewrite Hhead. left.
        -- apply (proj1 (summary_first_line _)).
           destruct (match_rgx_sound _ _ Hm) as (perc & failed & total & H & _).
           by exists perc, failed, total.
      * rewrite IH. split.
        -- intros Hno line Hin.
           rewrite Hhead in Hin. apply elem_of_cons in Hin as [->|Hin].
           ++ intros Hline%summary_first_line.
              by apply (proj1 (match_rgx_none _)) in Hline.
           ++ apply Hno. by apply Htail.
        -- intros Hno line Hin. apply Hno.
           rewrite Hhead. right. by apply Htail.
    + rewrite IH. split; intros Hno line Hin; apply Hno; by apply Htail.
Qed.

(** A match of the search is a line of the output that matches the
    pattern, and its groups are the numbers written on that line. *)
Lemma re_search_some at_bol out m :
  re_search at_bol out = Some m ->
  exists line perc failed total,
    line ∈ (if at_bol then regex_lines out else tail (regex_lines out)) /\
    summary_fields perc failed total line /\
    m = groups_of perc failed total.
Proof.
  revert at_bol. induction out as [|c out IH]; intros at_bol.
  - cbn [re_search regex_lines tail]. destruct at_bol; [|discriminate].
    destruct (match_rgx EmptyString) as [m'|] eqn:Hm; [|discriminate].
    intros [= <-]. apply match_rgx_sound in Hm as (perc & failed & total & H & ->).
    exists EmptyString, perc, failed, total. split; [left|done].
  - cbn [re_search].
    destruct (regex_lines_head out) as [ls Hls].
    destruct (regex_lines_head (String c out)) as [ls' Hls'].
    assert (forall line, line ∈ (if is_newline c then regex_lines out
                                 else tail (regex_lines out)) ->
                         line ∈ ls') as Htail.
    { intros line. cbn [regex_lines first_line] in Hls'. destruct (is_newline c).
      - injection Hls' as <-. done.
      - rewrite Hls in Hls'. injection Hls' as <-. by rewrite Hls. }
    rewrite Hls'. cbn [tail].
    assert (forall b, re_search b out = Some m ->
              b = is_newline c ->
              exists line perc failed total,
                line ∈ ls' /\ summary_fields perc failed total line /\
                m = groups_of perc failed total) as Hrest.
    { intros b Hb ->. apply IH in Hb as (line & perc & failed & total & Hin & H).
      exists line, perc, failed, total. split; [by apply Htail|done]. }
    destruct at_bol.
    + destruct (match_rgx (String c out)) as [m'|] eqn:Hm.
      * intros [= <-].
        apply match_rgx_sound in Hm as (perc & failed & total & H & ->).
        exists (first_line (String c out)), perc, failed, total.
        split; [left|]. split; [|done].
        by apply (proj1 (summary_fields_first_line _ _ _ _)).
      * intros Hs. destruct (Hrest _ Hs eq_refl) as (line & perc & failed & total & Hin & H).
        exists line, perc, failed, total. split; [by right|done].
    + intros Hs. exact (Hrest _ Hs eq_refl).
Qed.

Lemma regex_lines_cons c out :
  regex_lines (String c out) =
  first_line (String c out) ::
    (if is_newline c then regex_lines out else tail (regex_lines out)).
Proof.
  destruct (regex_lines_head out) as [ls Hls]. cbn [regex_lines first_line].
  destruct (is_newline c); [done|]. by rewrite Hls.
Qed.

(** The search stops at the first line that matches the pattern, and the
    rate and the failure count of its match are the numbers written on
    that line. *)
Lemma re_search_first (at_bol : bool) (out : string) before line after perc failed total :
  (if at_bol then regex_lines out else tail (regex_lines out)) =
    before ++ line :: after ->
  (forall l, l ∈ before -> ~ summary_line l) ->
  summary_fields perc failed total line ->
  exists m, re_search at_bol out = Some m /\
            perc_group m = int_of_digits perc /\
            failed_group m = int_of_digits failed.
Proof.
  revert at_bol before. induction out as [|c out IH]; intros at_bol before Hlines Hno Hline.
  - cbn [regex_lines tail] in Hlines. destruct at_bol.
    + destruct before as [|b [|b' before]]; try discriminate.
      injection Hlines as <- _. cbn [re_search].
      destruct (match_rgx_complete _ _ _ _ Hline) as (m & -> & Hm). eauto.
    + by destruct before.
  - rewrite regex_lines_cons in Hlines. cbn [tail] in Hlines.
    cbn [re_search].
    destruct at_bol; [|by eapply IH].
    destruct before as [|b before].
    + injection Hlines as <- _.
      apply (proj2 (summary_fields_first_line _ _ _ (String c out))) in Hline.
      destruct (match_rgx_complete _ _ _ _ Hline) as (m & -> & Hm). eauto.
    + injection Hlines as <- Hlines.
      assert (match_rgx (String c out) = None) as ->.
      { apply match_rgx_none. intros H.
        apply (proj1 (summary_first_line (String c out))) in H.
        apply (Hno (first_line (String c out))); [left|done]. }
      eapply IH; [done| |done]. intros l Hl. apply Hno. by right.
Qed.

(** ** The decision *)

Lemma Qltb_lt x y : Qltb x y = true <-> (x < y)%Q.
Proof.
  unfold Qltb. rewrite negb_true_iff. split.
  - intros H. apply Qnot_le_lt. intros Hle. apply Qle_bool_iff in Hle. congruence.
  - intros H. destruct (Qle_bool y x) eqn:Hle; [|done].
    apply Qle_bool_iff in Hle. by apply Qlt_not_le in H.
Qed.

(** [test_step] decides on the output of the harness as [evaluate] does. *)
Lemma test_step_evaluate self run_cmd :
  test_suite_nprocs (cfg self) <> 0%Z ->
  test_step self run_cmd =
  evaluate
    (fst (run_cmd
            (String.concat " "
               ["ctest";
                "-j" +:+ fmt_d (Z.max 1 (parallel (cfg self) / test_suite_nprocs (cfg self)));
                "--output-on-failure"])))
    (test_suite_allow_failures (cfg self))
    (test_suite_threshold (cfg self)) (test_suite_max_failed (cfg self)).
Proof.
  intros Hn. unfold test_step.
  destruct (Z.eqb_spec (test_suite_nprocs (cfg self)) 0); [done|].
  destruct (run_cmd _) as [out status]. reflexivity.
Qed.

(** C3: when the first line of the output that matches the summary
    pattern reports a rate below the threshold, [test_step] raises the
    rate error whatever the allow-list and the failure limit are: the
    rate is the one the harness wrote in its summary, and allow-listed
    failures do not change it.  The summary line is one whose numbers
    Python converts ([short_line]) and the threshold one that rounding
    to a double keeps above the rates below it ([short_decimal]). *)
Theorem C3_rate_check_ignores_allow_list
    out allow_fail thr num_fail_thr before line after perc failed total :
  regex_lines out = before ++ line :: after ->
  (forall l, l ∈ before -> ~ summary_line l) ->
  summary_fields perc failed total line ->
  short_line line ->
  short_decimal thr ->
  (Z.of_N (int_of_digits perc) # 100 < thr)%Q ->
  evaluate out allow_fail thr num_fail_thr =
    Raised (EasyBuildError_rate thr (Z.of_N (int_of_digits perc) # 100)).
Proof.
  intros Hlines Hno Hline _ _ Hlt.
  destruct (re_search_first true out _ _ _ _ _ _ Hlines Hno Hline) as (m & Hm & Hperc & _).
  unfold evaluate. rewrite Hm, Hperc.
  apply Qltb_lt in Hlt. by rewrite Hlt.
Qed.

Lemma allowed_failure_summary :
  summary_fields "74" "124" "481" "74% tests passed, 124 tests failed out of 481".
Proof.
  exists EmptyString, " ", " ", " ", EmptyString. by repeat split.
Defined.

Lemma default_threshold_short : short_decimal (97 # 100)%Q.
Proof.
  split; [by vm_compute|]. split; [by vm_compute|].
  exists 970000000000000%Z. reflexivity.
Defined.

(** The only failure of the run is allow-listed, the limit of unallowed
    failures is 0 and is not exceeded, and the rate 74% is below 97%. *)
Lemma C3_rate_check_ignores_allow_list_witness :
  scan_failures default_allow_failures (splitlines allowed_failure_output) = [] /\
  evaluate allowed_failure_output default_allow_failures (97 # 100)%Q 0 =
    Raised (EasyBuildError_rate (97 # 100)%Q (74 # 100)%Q).
Proof.
  split; [reflexivity|].
  apply (C3_rate_check_ignores_allow_list allowed_failure_output
           default_allow_failures (97 # 100)%Q 0
           ["635/635 Test #570: system--epw_wfpt-correctness ......***Failed    3.52 sec"]
           "74% tests passed, 124 tests failed out of 481" [EmptyString]
           "74" "124" "481").
  - reflexivity.
  - intros l ->%list_elem_of_singleton. by apply match_rgx_none.
  - exact allowed_failure_summary.
  - unfold short_line. cbn. lia.
  - exact default_threshold_short.
  - reflexivity.
Defined.

(** C7: an output none of whose lines matches the summary pattern makes
    [test_step] raise the parse error, whatever the allow-list, the
    threshold and the failure limit are. *)
Theorem C7_no_summary_is_parse_error out allow_fail thr num_fail_thr :
  (forall line, line ∈ regex_lines out -> ~ summary_line line) ->
  evaluate out allow_fail thr num_fail_thr =
    Raised (EasyBuildError "Failed to parse test suite output").
Proof.
  intros Hno. unfold evaluate.
  by rewrite (proj2 (re_search_none true out) Hno).
Qed.

(** An output whose lines do not match the pattern. *)
Lemma C7_no_summary_is_parse_error_witness :
  evaluate no_summary_output default_allow_failures (97 # 100)%Q 0 =
    Raised (EasyBuildError "Failed to parse test suite output").
Proof.
  apply (C7_no_summary_is_parse_error no_summary_output).
  apply (proj1 (re_search_none true no_summary_output)).
  vm_compute. reflexivity.
Defined.

(** ** The artifact deriver *)

Lemma run_when b bins st :
  when b (check_bins_extend bins) st = (Returned tt, add_bins (sel b bins) st).
Proof. destruct b; [reflexivity|]. cbn [when sel]. by rewrite run_ret, add_bins_nil. Qed.

(** The conditions of [sanity_check_step] select from the catalog. *)
Lemma run_standard_binaries targets st :
  standard_binaries targets st = (Returned tt, add_bins (selected_bins targets) st).
Proof.
  unfold standard_binaries.
  repeat (rewrite bind_run, run_when). rewrite run_when, !add_bins_app.
  unfold selected_bins, selects. cbn [catalog map concat fst snd pwall_targets existsb
    String.eqb Ascii.eqb Bool.eqb andb orb].
  rewrite ?orb_false_r, ?app_nil_r, <- ?app_assoc, <- ?orb_assoc. reflexivity.
Qed.

Lemma derive_selected targets extra :
  derive targets extra = extra ++ selected_bins targets.
Proof. unfold derive. by rewrite run_standard_binaries. Qed.

Lemma run_sanity_check_step self st :
  sanity_check_step self st =
  (Returned (bin_path <$> derive (split (buildopts (cfg self))) (check_bins st)),
   add_bins (selected_bins (split (buildopts (cfg self)))) st).
Proof.
  unfold sanity_check_step.
  by rewrite bind_run, run_standard_binaries, derive_selected.
Qed.

Lemma bin_path_inj : Inj (=) (=) bin_path.
Proof.
  intros x y. unfold bin_path.
  destruct (String.prefix "/" x) eqn:Hx, (String.prefix "/" y) eqn:Hy; intros H.
  - done.
  - subst x. discriminate.
  - subst y. discriminate.
  - by apply (inj (String.append "bin/")) in H.
Qed.

Lemma sel_sublist {A} (b : bool) (l : list A) : sel b l `sublist_of` l.
Proof. destruct b; [done|apply sublist_nil_l]. Qed.

Lemma selected_sublist (f : string -> bool) (entries : list (string * list string)) :
  concat (map (fun entry => sel (f (fst entry)) (snd entry)) entries)
    `sublist_of` concat (map snd entries).
Proof.
  induction entries as [|entry entries IH]; [done|]. cbn [map concat].
  by apply sublist_app; [apply sel_sublist|].
Qed.

(** No binary is listed twice in the catalog or among the plugin binaries. *)
Lemma all_bins_NoDup : NoDup (accepted_plugin_bins ++ catalog_bins).
Proof. apply (bool_decide_unpack _). vm_compute. exact I. Qed.

(** C2: with no target requested and with [all_currents] requested, the
    expected binaries are the same: the binaries already expected for the
    plugins, followed by those of every catalog entry. *)
Theorem C2_all_targets (extra : list string) :
  derive [] extra = derive ["all_currents"] extra /\
  derive [] extra = extra ++ catalog_bins.
Proof. rewrite !derive_selected. split; reflexivity. Qed.

(** C8: every binary expected for one of the targets [ph], [pp], [pw],
    [neb] and [pwcond] requested alone is expected for [pwall]. *)
Theorem C8_pwall_covers_subtargets (extra : list string) (x : string) :
  x ∈ derive ["ph"] extra \/ x ∈ derive ["pp"] extra \/ x ∈ derive ["pw"] extra \/
  x ∈ derive ["neb"] extra \/ x ∈ derive ["pwcond"] extra ->
  x ∈ derive ["pwall"] extra.
Proof.
  rewrite !derive_selected, !elem_of_app.
  assert (selected_bins ["ph"] ++ selected_bins ["pp"] ++ selected_bins ["pw"] ++
          selected_bins ["neb"] ++ selected_bins ["pwcond"] ⊆ selected_bins ["pwall"])
    as Hsub by (apply (bool_decide_unpack _); vm_compute; exact I).
  intros H. assert (x ∈ extra \/
    x ∈ selected_bins ["ph"] ++ selected_bins ["pp"] ++ selected_bins ["pw"] ++
        selected_bins ["neb"] ++ selected_bins ["pwcond"]) as [?|Hin].
  { rewrite !elem_of_app. tauto. }
  - by left.
  - right. by apply Hsub.
Qed.

(** [ph.x], expected for [ph], is expected for [pwall]. *)
Lemma C8_pwall_covers_subtargets_witness : "ph.x" ∈ derive ["pwall"] [].
Proof.
  apply (C8_pwall_covers_subtargets [] "ph.x").
  left. apply (bool_decide_unpack _). vm_compute. exact I.
Defined.

(** An accepted configuration: D3Q is off, the argument list is the
    previous one followed by the resolved arguments, and the plugin
    binaries are expected. *)
Lemma configure_accepted self st0 st :
  configure_step self st0 = (Returned tt, st) ->
  with_d3q (cfg self) = false /\
  configopts st = configopts st0 ++ resolved_args self /\
  check_bins st = check_bins st0 ++ plugin_bins self.
Proof.
  rewrite run_configure.
  destruct (version_lt _ _) eqn:Hv; [discriminate|].
  destruct (with_scalapack _ && _); [discriminate|].
  destruct (_ && negb (with_scalapack _)); [discriminate|].
  destruct (_ && _ && openmp _); [discriminate|].
  destruct (with_gipaw _ && _); [discriminate|].
  destruct (with_d3q _ && _) eqn:Hd; [discriminate|].
  rewrite (version_gate _ Hv), andb_true_r in Hd.
  intros [= <-]. split; [done|].
  unfold with_ldflags. by destruct (build_shared_libs _ && _).
Qed.

(** C9: after an accepted configuration of a fresh easyblock, the
    binaries expected for any list of targets, and the paths checked for
    them, hold no entry twice; so it is for the paths and the binaries
    [sanity_check_step] ends with. *)
Theorem C9_expected_bins_NoDup self opts env st targets :
  configure_step self (init_state opts env) = (Returned tt, st) ->
  NoDup (derive targets (check_bins st)) /\
  NoDup (bin_path <$> derive targets (check_bins st)) /\
  exists files st',
    sanity_check_step self st = (Returned files, st') /\
    NoDup files /\ NoDup (check_bins st').
Proof.
  intros (Hd & _ & Hbins)%configure_accepted.
  assert (forall targets, NoDup (derive targets (check_bins st))) as Hnd.
  { intros targets'. rewrite derive_selected, Hbins. cbn [init_state check_bins app].
    eapply sublist_NoDup; [apply all_bins_NoDup|].
    apply sublist_app; [|apply selected_sublist].
    unfold plugin_bins, accepted_plugin_bins. rewrite Hd.
    destruct (with_gipaw _), (with_qmcpack _); cbn [sel app]; repeat constructor. }
  assert (forall targets, NoDup (bin_path <$> derive targets (check_bins st))) as Hpaths
    by (intros targets'; by apply (@NoDup_fmap_2 _ _ bin_path bin_path_inj)).
  repeat split; [done..|].
  rewrite run_sanity_check_step. do 2 eexists. split; [reflexivity|].
  split; [done|]. cbn [add_bins check_bins]. rewrite <- derive_selected. done.
Qed.

(** The default easyconfig at version 7.3, with overlapping targets. *)
Lemma C9_expected_bins_NoDup_witness :
  NoDup (derive ["pwall"; "ph"; "pw"] ["gipaw.x"]) /\
  NoDup (bin_path <$> derive ["pwall"; "ph"; "pw"] ["gipaw.x"]) /\
  exists files st',
    sanity_check_step qe73 (snd (configure_step qe73 (init_state [] ∅))) =
      (Returned files, st') /\
    NoDup files /\ NoDup (check_bins st').
Proof.
  exact (C9_expected_bins_NoDup qe73 [] ∅ _ ["pwall"; "ph"; "pw"] eq_refl).
Defined.

(** ** Sample runs *)

Example configure_qe73 :
  configure_step qe73 (init_state [] ∅) =
  (Returned tt,
   {| configopts :=
        ["-DENABLE_MPI=ON"; "-DENABLE_OPENMP=ON"; "-DQE_ENABLE_SCALAPACK=ON";
         "-DQE_ENABLE_LIBXC=ON"; "-DQE_ENABLE_HDF5=ON";
         "-DQE_ENABLE_PLUGINS=" +:+ dquote +:+ "gipaw" +:+ dquote;
         "-DQE_ENABLE_TEST=ON"; "-DTESTCODE_NPROCS=1"; "-DQE_CLOCK_SECONDS=ON"];
      check_bins := ["gipaw.x"];
      environ := ∅ |}).
Proof. vm_compute. reflexivity. Qed.

Example evaluate_74_percent :
  evaluate ("74% tests passed, 124 tests failed out of 481" +:+ nl) [] (97 # 100)%Q 0 =
  Raised (EasyBuildError_rate (97 # 100)%Q (74 # 100)%Q).
Proof. reflexivity. Qed.

Example evaluate_all_passed :
  evaluate ("100% tests passed, 0 tests failed out of 10" +:+ nl)
    default_allow_failures (97 # 100)%Q 0 =
  Returned ("100% tests passed, 0 tests failed out of 10" +:+ nl).
Proof. reflexivity. Qed.

Example evaluate_unallowed_failure :
  evaluate ("1/2 Test #1: system--pw_scf ......***Failed  1.00 sec" +:+ nl +:+
            "98% tests passed, 1 tests failed out of 50" +:+ nl)
    default_allow_failures (97 # 100)%Q 0 =
  Raised (EasyBuildError "Test suite failed with more than 0 failures 1").
Proof. reflexivity. Qed.

(** The token that selects every target is [all_currents]; a target
    named [all] selects nothing. *)
Example derive_all_literal : derive ["all"] [] = [].
Proof. reflexivity. Qed.

Example split_buildopts : split "  pw   ph pwall " = ["pw"; "ph"; "pwall"].
Proof. reflexivity. Qed.

(** * Further properties *)

(** ** The option resolver: accepted configurations *)

Lemma version_eq_spec (a b : LooseVersion) : version_eq a b = true <-> a = b.
Proof.
  unfold version_eq. revert b. induction a as [|x a IH]; intros [|y b]; simpl;
    try (split; [discriminate|intros [=]]); [done|].
  destruct (N.compare_spec x y) as [->| |].
  - rewrite IH. split; [by intros ->|by intros [= ->]].
  - split; [discriminate|]. intros [= -> _]. lia.
  - split; [discriminate|]. intros [= -> _]. lia.
Qed.

Lemma run_configure_accepts self st :
  configure_step self st =
  if accepts self then
    (Returned tt,
     with_ldflags self (add_opts (resolved_args self) (add_bins (plugin_bins self) st)))
  else configure_step self st.
Proof.
  destruct (accepts self) eqn:Hacc; [|done].
  unfold accepts in Hacc. rewrite !andb_true_iff, !negb_true_iff in Hacc.
  destruct Hacc as (((((Hv & H1) & H2) & H3) & H4) & H5).
  by rewrite run_configure, Hv, H1, H2, H3, H4, H5.
Qed.

Lemma configure_returns_accepts self st st' :
  configure_step self st = (Returned tt, st') -> accepts self = true.
Proof.
  rewrite run_configure. unfold accepts.
  destruct (version_lt _ _) eqn:Hv; [discriminate|].
  rewrite (version_gate _ Hv), andb_true_r.
  repeat match goal with
         | |- context [if ?c then (Raised _, _) else _] => destruct c; [discriminate|]
         end.
  done.
Qed.

(** X1: the version and feature checks of [configure_step] raise one of
    the six errors of the easyblock exactly when the version is below
    7.3, or ScaLAPACK is requested without MPI, or ELPA is loaded without
    ScaLAPACK or at version 7.3 with OpenMP, or GIPAW is requested at
    version 7.3.1, or D3Q is requested.  When none of this holds, no
    check raises, and the method goes on to the test arguments and to the
    configuration step of the superclass. *)
Theorem X1_checks_raise_iff self st :
  (exists msg st',
     configure_step self st = (Raised (EasyBuildError msg), st') /\
     msg ∈ resolver_messages) <->
  accepts self = false.
Proof.
  split.
  - intros (msg & st' & H & _). destruct (accepts self) eqn:Hacc; [|done].
    rewrite run_configure_accepts, Hacc in H. discriminate H.
  - intros Hacc. rewrite run_configure.
    assert (forall msg st',
              msg ∈ resolver_messages ->
              exists msg0 st0,
                (Raised (EasyBuildError msg), st') =
                (Raised (EasyBuildError msg0) : outcome unit, st0 : State) /\
                msg0 ∈ resolver_messages) as Hraise by eauto.
    unfold accepts in Hacc.
    destruct (version_lt _ _) eqn:Hv;
      [apply Hraise; unfold resolver_messages; repeat first [left | right]|].
    rewrite (version_gate _ Hv), andb_true_r.
    destruct (with_scalapack _ && negb (usempi _));
      [apply Hraise; unfold resolver_messages; repeat first [left | right]|].
    destruct (_ && negb (with_scalapack _));
      [apply Hraise; unfold resolver_messages; repeat first [left | right]|].
    destruct (_ && _ && openmp _);
      [apply Hraise; unfold resolver_messages; repeat first [left | right]|].
    destruct (with_gipaw _ && _);
      [apply Hraise; unfold resolver_messages; repeat first [left | right]|].
    destruct (with_d3q _);
      [apply Hraise; unfold resolver_messages; repeat first [left | right]|].
    discriminate Hacc.
Qed.

(** X2: when [configure_step] returns, the argument list is the previous
    one followed by the toolchain, library, plugin and test arguments in
    that order, and the binaries expected on top of the previous ones are
    [gipaw.x] and [pw2qmcpack.x] when their plugins are requested. *)
Theorem X2_accepted_arguments self st st' :
  configure_step self st = (Returned tt, st') ->
  configopts st' =
    configopts st ++ toolchain_args self ++ library_args self ++
    plugin_args self ++ test_args self /\
  check_bins st' =
    check_bins st ++ sel (with_gipaw (cfg self)) ["gipaw.x"] ++
    sel (with_qmcpack (cfg self)) ["pw2qmcpack.x"].
Proof.
  intros (Hd & Hopts & Hbins)%configure_accepted. split; [done|].
  rewrite Hbins. unfold plugin_bins. by rewrite Hd.
Qed.

(** The default easyconfig at version 7.3 with HDF5 and libxc loaded. *)
Lemma X2_accepted_arguments_witness :
  let st' :=
    {| configopts :=
         ["-DCMAKE_BUILD_TYPE=Release"; "-DENABLE_MPI=ON"; "-DENABLE_OPENMP=ON";
          "-DQE_ENABLE_SCALAPACK=ON"; "-DQE_ENABLE_LIBXC=ON"; "-DQE_ENABLE_HDF5=ON";
          "-DQE_ENABLE_PLUGINS=" +:+ dquote +:+ "gipaw" +:+ dquote;
          "-DQE_ENABLE_TEST=ON"; "-DTESTCODE_NPROCS=1"; "-DQE_CLOCK_SECONDS=ON"];
       check_bins := ["gipaw.x"];
       environ := ∅ |} in
  configopts st' =
    ["-DCMAKE_BUILD_TYPE=Release"] ++ toolchain_args qe73 ++ library_args qe73 ++
    plugin_args qe73 ++ test_args qe73 /\
  check_bins st' = [] ++ ["gipaw.x"] ++ [].
Proof.
  apply (X2_accepted_arguments qe73 (init_state ["-DCMAKE_BUILD_TYPE=Release"] ∅)).
  vm_compute. reflexivity.
Defined.

(** X3: whatever its outcome, [configure_step] only appends to the
    argument list and to the expected binaries, and leaves every
    environment variable other than [LDFLAGS] as it was. *)
Theorem X3_configure_appends_only self st :
  exists args bins,
    configopts (snd (configure_step self st)) = configopts st ++ args /\
    check_bins (snd (configure_step self st)) = check_bins st ++ bins /\
    forall name, name <> "LDFLAGS" ->
      environ (snd (configure_step self st)) !! name = environ st !! name.
Proof.
  rewrite run_configure.
  repeat match goal with
         | |- context [if ?c then _ else _] => destruct c
         end; cbn [snd add_opts add_bins configopts check_bins environ].
  1-6: do 2 eexists; split; [|split; [|done]];
       first [reflexivity | symmetry; apply app_nil_r].
  unfold with_ldflags.
  destruct (build_shared_libs _ && _);
    cbn [snd add_opts add_bins configopts check_bins environ];
    (do 2 eexists; split; [reflexivity|split; [reflexivity|]]); [|done].
  intros name Hne. by rewrite lookup_insert_ne.
Qed.

(** X4: when [configure_step] returns, [LDFLAGS] is its former value (the
    empty string when it was unset) followed by the linker flag if shared
    libraries are built with the Intel compilers, and the environment is
    unchanged otherwise. *)
Theorem X4_ldflags_workaround self st st' :
  configure_step self st = (Returned tt, st') ->
  environ st' =
    if build_shared_libs (cfg self) && bool_decide (comp_family (toolchain self) = INTELCOMP)
    then <["LDFLAGS" := default EmptyString (environ st !! "LDFLAGS")
                        +:+ " -Wl,--copy-dt-needed-entries "]> (environ st)
    else environ st.
Proof.
  rewrite run_configure.
  repeat match goal with
         | |- context [if ?c then (Raised _, _) else _] => destruct c; [discriminate|]
         end.
  intros [= <-]. unfold with_ldflags.
  destruct (build_shared_libs _ && _); [|done].
  cbn [environ add_opts add_bins]. by destruct (environ st !! "LDFLAGS").
Qed.

(** Shared libraries on the Intel compilers, with [LDFLAGS] set before. *)
Lemma X4_ldflags_workaround_witness :
  let st := init_state [] {["LDFLAGS" := "-L/opt/lib"]} in
  let st' :=
    {| configopts :=
         ["-DENABLE_MPI=ON"; "-DQE_ENABLE_SCALAPACK=ON";
          "-DQE_ENABLE_PLUGINS=" +:+ dquote +:+ "gipaw" +:+ dquote;
          "-DQE_ENABLE_TEST=ON"; "-DTESTCODE_NPROCS=1"; "-DQE_CLOCK_SECONDS=ON"];
       check_bins := ["gipaw.x"];
       environ := {["LDFLAGS" := "-L/opt/lib -Wl,--copy-dt-needed-entries "]} |} in
  environ st' =
    if build_shared_libs (cfg intel_shared_block)
       && bool_decide (comp_family (toolchain intel_shared_block) = INTELCOMP)
    then <["LDFLAGS" := default EmptyString (environ st !! "LDFLAGS")
                        +:+ " -Wl,--copy-dt-needed-entries "]> (environ st)
    else environ st.
Proof.
  intros st st'. apply (X4_ldflags_workaround intel_shared_block st st').
  vm_compute. reflexivity.
Defined.

Lemma elem_of_sel {A} (b : bool) (l : list A) (x : A) :
  x ∈ sel b l <-> b = true /\ x ∈ l.
Proof.
  destruct b; cbn [sel].
  - split; [done|by intros [_ ?]].
  - split; [by intros ?%elem_of_nil|by intros [[=] _]].
Qed.

(** Where an argument of an accepted configuration comes from. *)
Lemma resolved_args_elem self x :
  x ∈ resolved_args self ->
  (usempi (toolchain self) = true /\ x = "-DENABLE_MPI=ON") \/
  (openmp (toolchain self) = true /\ x = "-DENABLE_OPENMP=ON") \/
  (with_cuda (cfg self) = true /\
   (x = "-DQE_ENABLE_CUDA=ON" \/ x = "-DQE_ENABLE_OPENACC=ON")) \/
  (with_scalapack (cfg self) = true /\ x = "-DQE_ENABLE_SCALAPACK=ON") \/
  (with_fox (cfg self) = true /\ x = "-DQE_ENABLE_FOX=ON") \/
  (get_software_root self "libxc" = true /\ x = "-DQE_ENABLE_LIBXC=ON") \/
  (get_software_root self "ELPA" = true /\ x = "-DQE_ENABLE_ELPA=ON") \/
  (get_software_root self "HDF5" = true /\ x = "-DQE_ENABLE_HDF5=ON") \/
  x = plugins_opt (plugin_tokens self) \/
  x ∈ test_args self.
Proof.
  unfold resolved_args, toolchain_args, library_args, library_args_before_elpa.
  intros H.
  repeat match type of H with
         | _ ∈ _ ++ _ => apply elem_of_app in H as [H|H]
         end;
    try (apply elem_of_sel in H as [Hb H];
         repeat (apply elem_of_cons in H as [H|H]); [..|by apply elem_of_nil in H];
         tauto).
  - unfold plugin_args in H. destruct (plugin_tokens self).
    + by apply elem_of_nil in H.
    + apply list_elem_of_singleton in H. tauto.
  - tauto.
Qed.

Lemma resolved_elpa self :
  "-DQE_ENABLE_ELPA=ON" ∈ resolved_args self -> get_software_root self "ELPA" = true.
Proof.
  intros H%resolved_args_elem. decompose [and or] H; try done; other_argument.
Qed.

Lemma resolved_scalapack self :
  "-DQE_ENABLE_SCALAPACK=ON" ∈ resolved_args self -> with_scalapack (cfg self) = true.
Proof.
  intros H%resolved_args_elem. decompose [and or] H; try done; other_argument.
Qed.

(** X5: in the arguments an accepted configuration appends, the ELPA
    argument comes only with the ScaLAPACK argument, and the ScaLAPACK
    argument only with the MPI argument. *)
Theorem X5_library_arguments_chain self st st' :
  configure_step self st = (Returned tt, st') ->
  exists args,
    configopts st' = configopts st ++ args /\
    ("-DQE_ENABLE_ELPA=ON" ∈ args -> "-DQE_ENABLE_SCALAPACK=ON" ∈ args) /\
    ("-DQE_ENABLE_SCALAPACK=ON" ∈ args -> "-DENABLE_MPI=ON" ∈ args).
Proof.
  intros H. pose proof (configure_returns_accepts _ _ _ H) as Hacc.
  apply configure_accepted in H as (_ & Hopts & _).
  exists (resolved_args self). split; [done|].
  unfold accepts in Hacc. rewrite !andb_true_iff, !negb_true_iff in Hacc.
  destruct Hacc as (((((_ & Hmpi) & Helpa) & _) & _) & _).
  split.
  - intros Hin%resolved_elpa. rewrite Hin in Helpa.
    destruct (with_scalapack (cfg self)) eqn:Hs; [|done].
    unfold resolved_args, library_args, library_args_before_elpa. rewrite Hs.
    rewrite !elem_of_app. right. left. left. left. left.
  - intros Hin%resolved_scalapack. rewrite Hin in Hmpi.
    destruct (usempi (toolchain self)) eqn:Hm; [|done].
    unfold resolved_args, toolchain_args. rewrite Hm.
    rewrite !elem_of_app. left. left. left.
Qed.

(** ELPA loaded on an MPI toolchain without OpenMP, at version 7.3. *)
Lemma X5_library_arguments_chain_witness :
  exists args,
    configopts (snd (configure_step (elpa_openmp_block false [7; 3]%N) (init_state [] ∅))) =
      configopts (init_state [] ∅) ++ args /\
    ("-DQE_ENABLE_ELPA=ON" ∈ args -> "-DQE_ENABLE_SCALAPACK=ON" ∈ args) /\
    ("-DQE_ENABLE_SCALAPACK=ON" ∈ args -> "-DENABLE_MPI=ON" ∈ args).
Proof.
  apply (X5_library_arguments_chain (elpa_openmp_block false [7; 3]%N) (init_state [] ∅)).
  vm_compute. reflexivity.
Defined.

(** ** The option resolver: version-specific rejections *)

Lemma get_software_root_true self name :
  get_software_root self name = true <-> name ∈ loaded self.
Proof. unfold get_software_root. apply bool_decide_eq_true. Qed.

(** X6: with ELPA loaded, ScaLAPACK requested and MPI enabled, at a
    version that is not below 7.3, [configure_step] raises the error on
    ELPA with OpenMP exactly when the version is 7.3 itself and OpenMP is
    enabled. *)
Theorem X6_elpa_openmp_only_at_7_3 self st :
  "ELPA" ∈ loaded self ->
  with_scalapack (cfg self) = true ->
  usempi (toolchain self) = true ->
  version_lt (version self) [7; 3]%N = false ->
  fst (configure_step self st) = Raised (EasyBuildError msg_elpa_openmp) <->
  version self = [7; 3]%N /\ openmp (toolchain self) = true.
Proof.
  intros He%get_software_root_true Hs Hm Hv.
  rewrite run_configure, Hv, Hs, Hm, He. cbn [andb negb].
  destruct (version_eq (version self) [7; 3]%N) eqn:Heq.
  - apply version_eq_spec in Heq.
    destruct (openmp (toolchain self)); cbn [fst andb]; [done|].
    split; [|by intros [_ [=]]].
    repeat match goal with
           | |- context [if ?c then _ else _] => destruct c
           end; cbn [fst]; unfold msg_gipaw, msg_d3q, msg_elpa_openmp;
      intros H; discriminate H.
  - assert (version self <> [7; 3]%N) as Hne
      by (intros Heq'%version_eq_spec; congruence).
    cbn [andb]. split; [|by intros [? _]].
    repeat match goal with
           | |- context [if ?c then _ else _] => destruct c
           end; cbn [fst]; unfold msg_gipaw, msg_d3q, msg_elpa_openmp;
      intros H; discriminate H.
Qed.

(** At version 7.3 with OpenMP the error is raised. *)
Lemma X6_elpa_openmp_only_at_7_3_witness :
  fst (configure_step (elpa_openmp_block true [7; 3]%N) (init_state [] ∅)) =
    Raised (EasyBuildError msg_elpa_openmp) <->
  version (elpa_openmp_block true [7; 3]%N) = [7; 3]%N /\
  openmp (toolchain (elpa_openmp_block true [7; 3]%N)) = true.
Proof.
  apply (X6_elpa_openmp_only_at_7_3 (elpa_openmp_block true [7; 3]%N) (init_state [] ∅)).
  - cbn. apply elem_of_singleton. reflexivity.
  - reflexivity.
  - reflexivity.
  - reflexivity.
Defined.

(** X7: at version 7.3.1 a configuration that requests GIPAW, as the
    default one does, is never accepted; when the ScaLAPACK and ELPA
    checks pass, the error is the one of the GIPAW rule. *)
Theorem X7_gipaw_rejected_at_7_3_1 self st :
  with_gipaw (cfg self) = true ->
  version self = [7; 3; 1]%N ->
  exists msg,
    fst (configure_step self st) = Raised (EasyBuildError msg) /\
    ((with_scalapack (cfg self) = true -> usempi (toolchain self) = true) ->
     ("ELPA" ∈ loaded self -> with_scalapack (cfg self) = true) ->
     msg = msg_gipaw).
Proof.
  intros Hg Hv. rewrite run_configure, Hg, Hv.
  change (version_lt [7; 3; 1]%N [7; 3]%N) with false.
  change (version_eq [7; 3; 1]%N [7; 3]%N) with false.
  change (version_eq [7; 3; 1]%N [7; 3; 1]%N) with true.
  rewrite andb_false_r. cbn [andb].
  destruct (with_scalapack (cfg self)), (usempi (toolchain self));
    cbn [andb negb fst].
  - destruct (get_software_root self "ELPA"); cbn [andb]; eauto.
  - eexists. split; [reflexivity|]. intros H _. by discriminate H.
  - destruct (get_software_root self "ELPA") eqn:He; cbn [andb]; [|eauto].
    eexists. split; [reflexivity|]. intros _ H.
    by discriminate H; apply get_software_root_true.
  - destruct (get_software_root self "ELPA") eqn:He; cbn [andb]; [|eauto].
    eexists. split; [reflexivity|]. intros _ H.
    by discriminate H; apply get_software_root_true.
Qed.

(** The default easyconfig on an MPI toolchain at version 7.3.1. *)
Lemma X7_gipaw_rejected_at_7_3_1_witness :
  exists msg,
    fst (configure_step (elpa_openmp_block true [7; 3; 1]%N) (init_state [] ∅)) =
      Raised (EasyBuildError msg) /\
    ((with_scalapack (cfg (elpa_openmp_block true [7; 3; 1]%N)) = true ->
      usempi (toolchain (elpa_openmp_block true [7; 3; 1]%N)) = true) ->
     ("ELPA" ∈ loaded (elpa_openmp_block true [7; 3; 1]%N) ->
      with_scalapack (cfg (elpa_openmp_block true [7; 3; 1]%N)) = true) ->
     msg = msg_gipaw).
Proof.
  exact (X7_gipaw_rejected_at_7_3_1 (elpa_openmp_block true [7; 3; 1]%N)
           (init_state [] ∅) eq_refl eq_refl).
Defined.

(** ** The test step: the run of the harness *)

(** X8: for a positive number of processes per test, [test_step] runs
    [ctest -j<k> --output-on-failure] with at least one worker; [k]
    workers of [nprocs] processes fit in the parallelism unless [k] is 1,
    and one more worker would not fit.  Its outcome is the decision on
    the output of that command. *)
Theorem X8_concurrency_budget self run_cmd :
  (0 < test_suite_nprocs (cfg self))%Z ->
  exists k : Z,
    (1 <= k)%Z /\
    (k = 1%Z \/ (k * test_suite_nprocs (cfg self) <= parallel (cfg self))%Z) /\
    (parallel (cfg self) < (k + 1) * test_suite_nprocs (cfg self))%Z /\
    test_step self run_cmd =
      evaluate (fst (run_cmd ("ctest -j" +:+ fmt_d k +:+ " --output-on-failure")))
        (test_suite_allow_failures (cfg self)) (test_suite_threshold (cfg self))
        (test_suite_max_failed (cfg self)).
Proof.
  intros Hn. exists (concurrent self). unfold concurrent.
  pose proof (Z.div_mod (parallel (cfg self)) (test_suite_nprocs (cfg self))) as Hdm.
  pose proof (Z.mod_pos_bound (parallel (cfg self)) (test_suite_nprocs (cfg self)) Hn).
  repeat split; [lia|nia|nia|].
  rewrite test_step_evaluate by lia. reflexivity.
Qed.

(** Eight cores and three processes per test: two workers. *)
Lemma X8_concurrency_budget_witness :
  exists k : Z,
    (1 <= k)%Z /\
    (k = 1%Z \/ (k * 3 <= 8)%Z) /\
    (8 < (k + 1) * 3)%Z /\
    test_step (nprocs_block 3 8) (fixed_harness allowed_failure_output) =
      evaluate
        (fst (fixed_harness allowed_failure_output
                ("ctest -j" +:+ fmt_d k +:+ " --output-on-failure")))
        default_allow_failures (97 # 100)%Q 0.
Proof.
  apply (X8_concurrency_budget (nprocs_block 3 8) (fixed_harness allowed_failure_output)).
  reflexivity.
Defined.

(** ** The test step: the decision *)

Lemma Qltb_false x y : Qltb x y = false <-> (y <= x)%Q.
Proof.
  unfold Qltb. rewrite negb_false_iff. apply Qle_bool_iff.
Qed.

Lemma test_step_decides self run_cmd :
  test_suite_nprocs (cfg self) <> 0%Z ->
  test_step self run_cmd =
  evaluate (fst (run_cmd (ctest_command self)))
    (test_suite_allow_failures (cfg self))
    (test_suite_threshold (cfg self)) (test_suite_max_failed (cfg self)).
Proof. intros Hn. by rewrite test_step_evaluate. Qed.

(** X10: with a number of processes per test other than zero, when the
    rate on the first summary line of the output of the harness is not
    below the threshold, [test_step] returns that output unchanged if the
    lines with the failure marker that no rule allows are at most the
    limit, and otherwise raises the error that names the limit and their
    number; the failure count and the total written on the summary line
    play no part.  The summary line is one whose numbers Python converts
    ([short_line]). *)
Theorem X10_count_check self run_cmd out before line after perc failed total :
  test_suite_nprocs (cfg self) <> 0%Z ->
  fst (run_cmd (ctest_command self)) = out ->
  regex_lines out = before ++ line :: after ->
  (forall l, l ∈ before -> ~ summary_line l) ->
  summary_fields perc failed total line ->
  short_line line ->
  (test_suite_threshold (cfg self) <= Z.of_N (int_of_digits perc) # 100)%Q ->
  let num_fail :=
    Z.of_nat (length (List.filter (unallowed (test_suite_allow_failures (cfg self)))
                        (splitlines out))) in
  ((num_fail <= test_suite_max_failed (cfg self))%Z ->
   test_step self run_cmd = Returned out) /\
  ((test_suite_max_failed (cfg self) < num_fail)%Z ->
   test_step self run_cmd =
   Raised (EasyBuildError ("Test suite failed with more than "
                           +:+ fmt_d (test_suite_max_failed (cfg self))
                           +:+ " failures " +:+ fmt_d num_fail))).
Proof.
  intros Hnprocs Hout Hlines Hno Hline _ Hrate num_fail.
  destruct (re_search_first true out _ _ _ _ _ _ Hlines Hno Hline) as (m & Hm & Hperc & _).
  rewrite (test_step_decides _ _ Hnprocs), Hout.
  unfold evaluate. rewrite Hm, Hperc, (proj2 (Qltb_false _ _) Hrate).
  rewrite scan_failures_filter. fold num_fail.
  split; intros Hn.
  - by rewrite Z.gtb_ltb, (proj2 (Z.ltb_ge _ _) Hn).
  - by rewrite Z.gtb_ltb, (proj2 (Z.ltb_lt _ _) Hn).
Qed.

(** The run of [unallowed_failure_output]: the rate 98% passes, and the
    one failure that no rule allows exceeds the limit 0. *)
Lemma X10_count_check_witness :
  let self := nprocs_block 3 8 in
  let run_cmd := fixed_harness unallowed_failure_output in
  let num_fail :=
    Z.of_nat (length (List.filter (unallowed (test_suite_allow_failures (cfg self)))
                        (splitlines unallowed_failure_output))) in
  ((num_fail <= test_suite_max_failed (cfg self))%Z ->
   test_step self run_cmd = Returned unallowed_failure_output) /\
  ((test_suite_max_failed (cfg self) < num_fail)%Z ->
   test_step self run_cmd =
   Raised (EasyBuildError ("Test suite failed with more than "
                           +:+ fmt_d (test_suite_max_failed (cfg self))
                           +:+ " failures " +:+ fmt_d num_fail))).
Proof.
  intros self run_cmd.
  apply (X10_count_check self run_cmd unallowed_failure_output
           ["1/2 Test #1: system--pw_scf ......***Failed  1.00 sec"]
           "98% tests passed, 1 tests failed out of 50" [EmptyString]
           "98" "1" "50").
  - discriminate.
  - reflexivity.
  - reflexivity.
  - intros l ->%list_elem_of_singleton. by apply match_rgx_none.
  - exists EmptyString, " ", " ", " ", EmptyString. by repeat split.
  - unfold short_line. cbn. lia.
  - vm_compute. discriminate.
Defined.

Lemma evaluate_parse_error out allow_fail thr num_fail_thr :
  evaluate out allow_fail thr num_fail_thr =
    Raised (EasyBuildError "Failed to parse test suite output") <->
  forall line, line ∈ regex_lines out -> ~ summary_line line.
Proof.
  rewrite <- (re_search_none true out). unfold evaluate.
  destruct (re_search true out) as [m|]; [|done].
  split; [|discriminate].
  destruct (Qltb _ _); [discriminate|].
  destruct (_ >? _)%Z; discriminate.
Qed.

(** X11: with a number of processes per test other than zero,
    [test_step] raises the parse error exactly when no line of the
    output of the harness matches the summary pattern. *)
Theorem X11_parse_error_iff self run_cmd out :
  test_suite_nprocs (cfg self) <> 0%Z ->
  fst (run_cmd (ctest_command self)) = out ->
  test_step self run_cmd =
    Raised (EasyBuildError "Failed to parse test suite output") <->
  forall line, line ∈ regex_lines out -> ~ summary_line line.
Proof.
  intros Hnprocs Hout. rewrite (test_step_decides _ _ Hnprocs), Hout.
  apply evaluate_parse_error.
Qed.

(** The output without a summary line. *)
Lemma X11_parse_error_iff_witness :
  test_step (nprocs_block 3 8) (fixed_harness no_summary_output) =
    Raised (EasyBuildError "Failed to parse test suite output") <->
  forall line, line ∈ regex_lines no_summary_output -> ~ summary_line line.
Proof.
  apply (X11_parse_error_iff (nprocs_block 3 8) (fixed_harness no_summary_output)).
  - discriminate.
  - reflexivity.
Defined.

(** X20: the parse error and the rate error do not depend on the
    allow-list nor on the failure limit: an output on which [test_step]
    raises one of them for some rules and some limit raises the same
    error for all rules and all limits. *)
Theorem X20_rate_check_independent
    out allow_fail allow_fail' thr num_fail_thr num_fail_thr' e :
  evaluate out allow_fail thr num_fail_thr = Raised e ->
  (e = EasyBuildError "Failed to parse test suite output" \/
   exists perc, e = EasyBuildError_rate thr perc) ->
  evaluate out allow_fail' thr num_fail_thr' = Raised e.
Proof.
  unfold evaluate. destruct (re_search true out) as [m|]; [|done].
  destruct (Qltb _ _); [done|].
  destruct (_ >? _)%Z; [|discriminate].
  intros [= <-] [H|[perc H]]; discriminate H.
Qed.

(** The rate error of the run whose only failure is allow-listed stays
    without rules and with a limit of ten failures. *)
Lemma X20_rate_check_independent_witness :
  evaluate allowed_failure_output [] (97 # 100)%Q 10 =
  Raised (EasyBuildError_rate (97 # 100)%Q (74 # 100)%Q).
Proof.
  apply (X20_rate_check_independent allowed_failure_output default_allow_failures []
           (97 # 100)%Q 0 10).
  - reflexivity.
  - right. by eexists.
Defined.

Lemma filter_length_le {A} (f g : A -> bool) (l : list A) :
  (forall x, f x = true -> g x = true) ->
  (length (List.filter f l) <= length (List.filter g l))%nat.
Proof.
  intros Hfg. induction l as [|x l IH]; [done|]. cbn [List.filter].
  destruct (f x) eqn:Hf.
  - rewrite (Hfg _ Hf). cbn [length]. lia.
  - destruct (g x); cbn [length]; lia.
Qed.

Lemma unallowed_anti (allow allow' : list string) (line : string) :
  allow ⊆ allow' -> unallowed allow' line = true -> unallowed allow line = true.
Proof.
  intros Hsub. unfold unallowed. rewrite !andb_true_iff, !negb_true_iff.
  intros [Hmark Hloop]. split; [done|].
  destruct (allowed_loop allow line) eqn:Ha; [|done].
  apply allowed_loop_spec in Ha as (a & Ha & Hsubstr).
  assert (allowed_loop allow' line = true) by (apply allowed_loop_spec; eauto).
  congruence.
Qed.

(** X12: a run that [test_step] lets pass still passes with more allow
    rules, a lower threshold and a higher failure limit. *)
Theorem X12_relaxing_keeps_pass out allow_fail allow_fail' thr thr' num_fail_thr num_fail_thr' :
  evaluate out allow_fail thr num_fail_thr = Returned out ->
  allow_fail ⊆ allow_fail' ->
  (thr' <= thr)%Q ->
  (num_fail_thr <= num_fail_thr')%Z ->
  evaluate out allow_fail' thr' num_fail_thr' = Returned out.
Proof.
  unfold evaluate. destruct (re_search true out) as [m|]; [|discriminate].
  destruct (Qltb _ thr) eqn:Hq; [discriminate|].
  destruct (_ >? _)%Z eqn:Hn; [discriminate|].
  intros _ Hsub Hthr Hlim.
  apply Qltb_false in Hq.
  rewrite (proj2 (Qltb_false _ _) (Qle_trans _ _ _ Hthr Hq)).
  rewrite Z.gtb_ltb in Hn. apply Z.ltb_ge in Hn.
  rewrite scan_failures_filter in *.
  pose proof (filter_length_le _ _ (splitlines out)
                (fun line => unallowed_anti _ _ line Hsub)) as Hle.
  rewrite Z.gtb_ltb, (proj2 (Z.ltb_ge _ _)); [done|lia].
Qed.

(** The passing run stays a pass with one more rule, at 90% and with a
    limit of 2. *)
Lemma X12_relaxing_keeps_pass_witness :
  evaluate ("100% tests passed, 0 tests failed out of 10" +:+ nl)
    ("--pw_" :: default_allow_failures) (90 # 100)%Q 2 =
  Returned ("100% tests passed, 0 tests failed out of 10" +:+ nl).
Proof.
  apply (X12_relaxing_keeps_pass ("100% tests passed, 0 tests failed out of 10" +:+ nl)
           default_allow_failures ("--pw_" :: default_allow_failures)
           (97 # 100)%Q (90 # 100)%Q 0 2).
  - reflexivity.
  - intros a Ha. by right.
  - vm_compute. discriminate.
  - lia.
Defined.

(** X13: an empty string among the allow rules allows every failure,
    since it occurs in every line: no failure is left to count. *)
Theorem X13_empty_rule_allows_all (allow_fail lines : list string) :
  EmptyString ∈ allow_fail -> scan_failures allow_fail lines = [].
Proof.
  intros Hin. rewrite scan_failures_filter.
  induction lines as [|line lines IH]; [done|]. cbn [List.filter].
  assert (allowed_loop allow_fail line = true) as Hloop.
  { apply allowed_loop_spec. exists EmptyString. split; [done|].
    by exists EmptyString, line. }
  unfold unallowed at 1. by rewrite Hloop, andb_false_r.
Qed.

Lemma X13_empty_rule_allows_all_witness :
  scan_failures ["--hp_"; EmptyString] failed_lines = [].
Proof.
  apply (X13_empty_rule_allows_all ["--hp_"; EmptyString] failed_lines).
  right. left.
Defined.

(** ** The artifact deriver: the targets *)

Lemma in_targets_true x targets : in_targets x targets = true <-> x ∈ targets.
Proof. unfold in_targets. apply bool_decide_eq_true. Qed.

Lemma length_eqb_0 {A} (l : list A) : (length l =? 0)%nat = true <-> l = [].
Proof. destruct l; cbn; split; done. Qed.

Lemma selects_true targets name :
  selects targets name = true <->
  targets = [] \/ "all_currents" ∈ targets \/
  (name ∈ pwall_targets /\ "pwall" ∈ targets) \/ name ∈ targets.
Proof.
  unfold selects.
  rewrite !orb_true_iff, andb_true_iff, length_eqb_0, !in_targets_true, existsb_exists.
  split.
  - intros [[[?|?]|[(y & Hy & ->%String.eqb_eq) ?]]|?]; try tauto.
    right. right. left. split; [by apply list_elem_of_In|done].
  - intros [?|[?|[[Hin ?]|?]]]; try tauto.
    left. right. split; [|done]. exists name.
    split; [by apply list_elem_of_In|by apply String.eqb_eq].
Qed.

Lemma selected_subseteq (f g : string -> bool) (entries : list (string * list string)) :
  (forall name, f name = true -> g name = true) ->
  concat (map (fun entry => sel (f (fst entry)) (snd entry)) entries) ⊆
  concat (map (fun entry => sel (g (fst entry)) (snd entry)) entries).
Proof.
  intros Hfg. induction entries as [|entry entries IH]; [done|]. cbn [map concat].
  intros x [Hx|Hx]%elem_of_app; apply elem_of_app; [left|right; by apply IH].
  apply elem_of_sel in Hx as [Hf Hx]. apply elem_of_sel. auto.
Qed.

(** X14: a non-empty list of targets expects no more binaries when
    targets are removed from it, and no list of targets expects more
    than the empty list, which stands for every target. *)
Theorem X14_derive_monotone (targets targets' extra : list string) :
  targets <> [] ->
  targets ⊆ targets' ->
  derive targets extra ⊆ derive targets' extra /\
  derive targets' extra ⊆ derive [] extra.
Proof.
  intros Hne Hsub. rewrite !derive_selected. split.
  - intros x [Hx|Hx]%elem_of_app; apply elem_of_app; [by left|right].
    revert x Hx. apply selected_subseteq. intros name.
    rewrite !selects_true. intros [?|[?|[[? ?]|?]]]; [done|auto..].
    right. right. left. auto.
  - intros x [Hx|Hx]%elem_of_app; apply elem_of_app; [by left|right].
    revert x Hx. apply selected_subseteq. intros name _.
    apply selects_true. by left.
Qed.

Lemma X14_derive_monotone_witness :
  derive ["pw"] ["gipaw.x"] ⊆ derive ["pw"; "ph"] ["gipaw.x"] /\
  derive ["pw"; "ph"] ["gipaw.x"] ⊆ derive [] ["gipaw.x"].
Proof.
  apply (X14_derive_monotone ["pw"] ["pw"; "ph"] ["gipaw.x"]).
  - discriminate.
  - intros x Hx. apply elem_of_cons. by left; apply list_elem_of_singleton.
Defined.

(** X15: the expected binaries depend on which targets are requested,
    not on their order nor on how often each is written. *)
Theorem X15_derive_set_of_targets (targets targets' extra : list string) :
  (forall x, x ∈ targets <-> x ∈ targets') ->
  derive targets extra = derive targets' extra.
Proof.
  intros Hsame. rewrite !derive_selected. f_equal. unfold selected_bins.
  f_equal. apply map_ext. intros entry.
  f_equal. apply eq_true_iff_eq. rewrite !selects_true, !Hsame.
  assert (targets = [] <-> targets' = []) as ->; [|done].
  split; intros ->.
  - destruct targets' as [|y ?]; [done|].
    assert (y ∈ @nil string) as H by (apply Hsame; left). by apply elem_of_nil in H.
  - destruct targets as [|y ?]; [done|].
    assert (y ∈ @nil string) as H by (apply Hsame; left). by apply elem_of_nil in H.
Qed.

Lemma X15_derive_set_of_targets_witness :
  derive ["ph"; "pw"; "ph"] ["gipaw.x"] = derive ["pw"; "ph"] ["gipaw.x"].
Proof.
  apply (X15_derive_set_of_targets ["ph"; "pw"; "ph"] ["pw"; "ph"] ["gipaw.x"]).
  intros x. rewrite !elem_of_cons, !elem_of_nil. tauto.
Defined.

Lemma selected_none (f : string -> bool) (entries : list (string * list string)) :
  (forall entry, entry ∈ entries -> f (fst entry) = false) ->
  concat (map (fun entry => sel (f (fst entry)) (snd entry)) entries) = [].
Proof.
  induction entries as [|entry entries IH]; [done|]. intros Hf. cbn [map concat].
  rewrite (Hf entry) by left. rewrite IH; [done|]. intros e He. apply Hf. by right.
Qed.

(** X16: when targets are requested and none of them is [all_currents],
    [pwall] or a name of the catalog, no standard binary is expected:
    only the binaries of the plugins are checked. *)
Theorem X16_unknown_targets (targets extra : list string) :
  targets <> [] ->
  (forall x, x ∈ targets -> x ∉ known_targets) ->
  derive targets extra = extra.
Proof.
  intros Hne Hunknown. rewrite derive_selected.
  rewrite <- (app_nil_r extra) at 2. f_equal. unfold selected_bins.
  apply selected_none. intros entry Hentry.
  destruct (selects targets (fst entry)) eqn:Hsel; [|done].
  apply selects_true in Hsel as [?|[Hall|[[_ Hpwall]|Hname]]]; [done|..].
  - destruct (Hunknown _ Hall). left.
  - destruct (Hunknown _ Hpwall). right. left.
  - destruct (Hunknown _ Hname). right. right.
    apply list_elem_of_In, in_map, list_elem_of_In, Hentry.
Qed.

(** A target written [all], and an option of make. *)
Lemma X16_unknown_targets_witness : derive ["all"; "-j4"] ["gipaw.x"] = ["gipaw.x"].
Proof.
  apply (X16_unknown_targets ["all"; "-j4"] ["gipaw.x"]).
  - discriminate.
  - intros x Hx. apply (bool_decide_unpack _).
    apply elem_of_cons in Hx as [->|Hx]; [by vm_compute|].
    apply list_elem_of_singleton in Hx as ->. by vm_compute.
Defined.

(** ** The artifact deriver: the sanity check step *)

(** X17: [sanity_check_step] keeps what it expects in [check_bins]: a
    second call on the same easyblock checks the paths of the first call
    followed by the standard binaries once more, so that every standard
    binary it selects is listed twice. *)
Theorem X17_second_sanity_check self st files st1 files2 st2 :
  sanity_check_step self st = (Returned files, st1) ->
  sanity_check_step self st1 = (Returned files2, st2) ->
  files2 = files ++ (bin_path <$> selected_bins (split (buildopts (cfg self)))) /\
  (selected_bins (split (buildopts (cfg self))) <> [] -> ~ NoDup files2).
Proof.
  rewrite !run_sanity_check_step, !derive_selected.
  intros [= <- <-] [= <- <-]. cbn [add_bins check_bins].
  rewrite !fmap_app. split; [done|].
  intros Hne Hnd. destruct (selected_bins _) as [|x bins]; [done|].
  rewrite <- app_assoc in Hnd. apply NoDup_app in Hnd as (_ & _ & Hnd).
  apply NoDup_app in Hnd as (_ & Hdisj & _).
  apply (Hdisj (bin_path x)); rewrite fmap_cons; left.
Qed.

(** Two sanity checks for the target [hp] after the default
    configuration. *)
Lemma X17_second_sanity_check_witness :
  ["bin/gipaw.x"; "bin/hp.x"; "bin/hp.x"] =
    ["bin/gipaw.x"; "bin/hp.x"] ++ (bin_path <$> selected_bins (split "hp")) /\
  (selected_bins (split "hp") <> [] -> ~ NoDup ["bin/gipaw.x"; "bin/hp.x"; "bin/hp.x"]).
Proof.
  apply (X17_second_sanity_check (buildopts_block "hp")
           {| configopts := []; check_bins := ["gipaw.x"]; environ := ∅ |}
           ["bin/gipaw.x"; "bin/hp.x"]
           {| configopts := []; check_bins := ["gipaw.x"; "hp.x"]; environ := ∅ |}
           ["bin/gipaw.x"; "bin/hp.x"; "bin/hp.x"]
           {| configopts := []; check_bins := ["gipaw.x"; "hp.x"; "hp.x"]; environ := ∅ |}).
  - vm_compute. reflexivity.
  - vm_compute. reflexivity.
Defined.

Lemma split_go_word cur w rest :
  forall_chars not_whitespace w = true ->
  split_go cur (w +:+ rest) = split_go (cur +:+ w) rest.
Proof.
  revert cur. induction w as [|c w IH]; intros cur Hw.
  - by rewrite app_empty_l, app_empty_r.
  - cbn [forall_chars] in Hw. apply andb_true_iff in Hw as [Hc Hw].
    unfold not_whitespace in Hc. apply negb_true_iff in Hc.
    rewrite app_cons. cbn [split_go]. rewrite Hc, (IH _ Hw).
    by rewrite string_app_assoc, app_cons, app_empty_l.
Qed.

Lemma split_words (words : list string) :
  Forall target_word words -> split (String.concat " " words) = words.
Proof.
  unfold split. induction 1 as [|w words [Hne Hw] Hwords IH]; [done|].
  destruct words as [|w' words].
  - cbn [String.concat]. rewrite <- (app_empty_r w) at 1.
    rewrite (split_go_word _ _ _ Hw), app_empty_l. cbn [split_go].
    by destruct w.
  - change (String.concat " " (w :: w' :: words))
      with (w +:+ String " " (String.concat " " (w' :: words))).
    rewrite (split_go_word _ _ _ Hw), app_empty_l. cbn [split_go].
    change (is_whitespace " ") with true. cbn match.
    rewrite IH. by destruct w.
Qed.

(** X18: build options that are words separated by single spaces
    request exactly those words as targets: [sanity_check_step] checks
    the paths of the binaries expected for them. *)
Theorem X18_buildopts_words self st (words : list string) :
  Forall target_word words ->
  buildopts (cfg self) = String.concat " " words ->
  fst (sanity_check_step self st) =
    Returned (bin_path <$> derive words (check_bins st)).
Proof.
  intros Hwords Hopts. by rewrite run_sanity_check_step, Hopts, split_words.
Qed.

Lemma X18_buildopts_words_witness :
  fst (sanity_check_step (buildopts_block "pw ph")
         {| configopts := []; check_bins := ["gipaw.x"]; environ := ∅ |}) =
  Returned (bin_path <$> derive ["pw"; "ph"] ["gipaw.x"]).
Proof.
  apply (X18_buildopts_words (buildopts_block "pw ph")
           {| configopts := []; check_bins := ["gipaw.x"]; environ := ∅ |} ["pw"; "ph"]).
  - repeat constructor; discriminate.
  - reflexivity.
Defined.

(** ** The plugin rules *)

(** X19: without D3Q, and with GIPAW only at a version other than
    7.3.1, the plugin rules return: they append no argument when neither
    GIPAW nor QMCPACK is requested, and otherwise one argument that
    lists the requested plugins between double quotes, separated by a
    semicolon, and they expect one binary for each of them. *)
Theorem X19_plugins_argument self st :
  with_d3q (cfg self) = false ->
  (with_gipaw (cfg self) = true -> version self <> [7; 3; 1]%N) ->
  _add_plugins self st =
  (Returned tt,
   {| configopts :=
        configopts st ++
        match with_gipaw (cfg self), with_qmcpack (cfg self) with
        | true, true =>
            ["-DQE_ENABLE_PLUGINS=" +:+ dquote +:+ "gipaw;pw2qmcpack" +:+ dquote]
        | true, false => ["-DQE_ENABLE_PLUGINS=" +:+ dquote +:+ "gipaw" +:+ dquote]
        | false, true => ["-DQE_ENABLE_PLUGINS=" +:+ dquote +:+ "pw2qmcpack" +:+ dquote]
        | false, false => []
        end;
      check_bins :=
        check_bins st ++
        match with_gipaw (cfg self), with_qmcpack (cfg self) with
        | true, true => ["gipaw.x"; "pw2qmcpack.x"]
        | true, false => ["gipaw.x"]
        | false, true => ["pw2qmcpack.x"]
        | false, false => []
        end;
      environ := environ st |}).
Proof.
  intros Hd Hv. rewrite run_plugins, Hd. cbn [andb].
  assert (with_gipaw (cfg self) && version_eq (version self) [7; 3; 1]%N = false) as ->.
  { destruct (with_gipaw (cfg self)); [|done]. cbn [andb].
    destruct (version_eq _ _) eqn:Heq; [|done].
    apply version_eq_spec in Heq. by destruct Hv. }
  unfold plugin_args, plugin_tokens, plugin_bins, add_opts, add_bins. rewrite Hd.
  destruct (with_gipaw (cfg self)), (with_qmcpack (cfg self)); cbn; by rewrite ?app_nil_r.
Qed.

(** GIPAW and QMCPACK at version 7.3. *)
Lemma X19_plugins_argument_witness :
  _add_plugins plugins_block (init_state [] ∅) =
  (Returned tt,
   {| configopts := [] ++ ["-DQE_ENABLE_PLUGINS=" +:+ dquote +:+ "gipaw;pw2qmcpack" +:+ dquote];
      check_bins := [] ++ ["gipaw.x"; "pw2qmcpack.x"];
      environ := ∅ |}).
Proof.
  apply (X19_plugins_argument plugins_block (init_state [] ∅) eq_refl).
  intros _. discriminate.
Defined.
